(** * sentilogging/get_scene.py: the [Sentinel] scene-query client

    A shallow embedding of class [Sentinel] (constructor, [api],
    [coords_to_polygon], [initial_keywords], [search_products]) together
    with the small part of Python's object model the class relies on:
    attribute lookup on instances, bound and static methods, positional
    argument binding with defaults, module-level names, exceptions.

    Everything outside the source file is a parameter of the embedding
    (record [env]): the UTC clock, the remote provider client
    ([format_query], [check_query_length], [query]), the CRS check of
    the geospatial library, [repr], and the names the module reads
    without ever binding them ([logger], [cloud_percent_accept],
    [lat_list], [lon_list]).

    As committed the module does not load: lines 122-123 close the
    parenthesis of the [date] entry one token early, and the annotation
    [GeoJSON] of line 85 is not defined.  The embedding follows the
    function bodies statement by statement, reads the [date] entry as the
    pair it is laid out to be,
    [(utcnow() - self.count_days_buffer, utcnow())], and does not evaluate
    annotations. *)

From stdpp Require Import gmap strings list pretty.
From Stdlib Require Import ZArith QArith.

Set Warnings "-register-all".
Open Scope Z_scope.

(** ** Python values *)

Inductive value :=
  | VNone
  | VBool (b : bool)
  | VInt (z : Z)
  | VFloat (q : Q)
  | VStr (s : string)
  | VTuple (l : list value)
  | VList (l : list value)
  | VDict (d : gmap string value)            (* dict with str keys *)
  | VODict (items : list (string * value))   (* collections.OrderedDict *)
  | VDatetime (us : Z)     (* microseconds since 0001-01-01T00:00:00 *)
  | VTimedelta (us : Z)    (* microseconds *)
  | VLogger (name : string)                  (* logging.Logger *)
  | VRef (a : nat).                          (* instance stored on the heap *)

Inductive exn :=
  | NameError (name : string)
  | AttributeError (attr : string)
  | TypeError (msg : string)
  | ValueError (msg : string)
  | KeyError (key : string)
  | OverflowError
  | CRSError
  | OSError
  | ProviderError (msg : string).

Inductive result (A : Type) :=
  | Ok (a : A)
  | Raise (e : exn).
Arguments Ok {A} a.
Arguments Raise {A} e.

Definition raised {A} (r : result A) : option exn :=
  match r with Ok _ => None | Raise e => Some e end.

Definition returned {A} (r : result A) : option A :=
  match r with Ok a => Some a | Raise _ => None end.

(** ** Objects, geometry and the world *)

Inductive pyclass := Sentinel | SentinelAPI | Namespace.

Record obj := Obj { cls : pyclass; attrs : gmap string value }.

(** shapely polygon: the exterior ring, closed. *)
Record polygon := MkPolygon { exterior : list (Q * Q) }.

(** geopandas.GeoDataFrame with a geometry column only. *)
Record geodataframe := MkFrame {
  gdf_index : list Z;
  gdf_crs : value;
  gdf_geometry : list polygon }.

Inductive level := INFO | ERROR.

Record world := World {
  heap : list obj;                         (* instances, by address *)
  ticks : nat;                             (* clock reads so far *)
  log : list (level * string);             (* records handed to loggers *)
  files : gmap string geodataframe;        (* files of the working directory *)
  writable : bool;                         (* can the working directory be written *)
  requests : list (gmap string value) }.   (* searches sent to the provider *)

Definition with_heap (h : list obj) (w : world) : world :=
  World h (ticks w) (log w) (files w) (writable w) (requests w).
Definition with_ticks (n : nat) (w : world) : world :=
  World (heap w) n (log w) (files w) (writable w) (requests w).
Definition with_log (l : list (level * string)) (w : world) : world :=
  World (heap w) (ticks w) l (files w) (writable w) (requests w).
Definition with_files (f : gmap string geodataframe) (w : world) : world :=
  World (heap w) (ticks w) (log w) f (writable w) (requests w).
Definition with_requests (r : list (gmap string value)) (w : world) : world :=
  World (heap w) (ticks w) (log w) (files w) (writable w) r.

(** ** State and exception monad *)

Definition M (A : Type) : Type := world → result A * world.

Definition ret {A} (a : A) : M A := λ w, (Ok a, w).
Definition raise {A} (e : exn) : M A := λ w, (Raise e, w).
Definition bind {A B} (m : M A) (k : A → M B) : M B := λ w,
  match m w with
  | (Ok a, w1) => k a w1
  | (Raise e, w1) => (Raise e, w1)
  end.
Definition lift {A} (r : result A) : M A := λ w, (r, w).

Notation "x <- m ;; k" := (bind m (λ x, k))
  (at level 100, m at next level, right associativity,
   format "'[v' x  <-  m  ;; '/' k ']'").
Notation "m ;;; k" := (bind m (λ _, k))
  (at level 100, right associativity).

Definition rbind {A B} (r : result A) (k : A → result B) : result B :=
  match r with Ok a => k a | Raise e => Raise e end.

Fixpoint traverse {A B} (f : A → result B) (l : list A) : result (list B) :=
  match l with
  | [] => Ok []
  | x :: l' => rbind (f x) (λ y, rbind (traverse f l') (λ ys, Ok (y :: ys)))
  end.

(** ** What lies outside the source file *)

Record env := Env {
  utc_clock : nat → Z;             (* n-th reading of datetime.utcnow() *)
  valid_crs : value → bool;        (* does the CRS constructor accept it *)
  api_format_query : gmap string value → result string;
  api_check_query_length : string → Q;
  api_query : gmap string value → result (list (string * value));
  py_repr : value → string;
  globals : gmap string value }.   (* module names bound from outside *)

(** ** Attribute lookup

    [obj.name] looks in the instance dictionary first and then in the
    class.  A function found in the class comes back bound to the
    instance; a [staticmethod] comes back as the plain function. *)

Inductive callable :=
  | F_api | F_coords_to_polygon | F_initial_keywords | F_search_products
  | F_format_query | F_check_query_length | F_query
  | F_log (lvl : level).

Inductive slot :=
  | Data (v : value)
  | Bound (f : callable) (recv : value)
  | Plain (f : callable).

Definition class_attr (c : pyclass) (name : string) : option (value → slot) :=
  match c, name with
  | Sentinel, "api" => Some (Bound F_api)
  | Sentinel, "coords_to_polygon" => Some (Bound F_coords_to_polygon)
  | Sentinel, "initial_keywords" => Some (λ _, Plain F_initial_keywords)
  | Sentinel, "search_products" => Some (Bound F_search_products)
  | SentinelAPI, "format_query" => Some (λ _, Plain F_format_query)
  | SentinelAPI, "check_query_length" => Some (λ _, Plain F_check_query_length)
  | SentinelAPI, "query" => Some (Bound F_query)
  | _, _ => None
  end.

Definition logger_attr (name : string) : option (value → slot) :=
  match name with
  | "error" => Some (Bound (F_log ERROR))
  | "info" => Some (Bound (F_log INFO))
  | _ => None
  end.

Definition getattr (v : value) (name : string) : M slot := λ w,
  match v with
  | VRef a =>
      match heap w !! a with
      | Some o =>
          match attrs o !! name with
          | Some x => (Ok (Data x), w)
          | None =>
              match class_attr (cls o) name with
              | Some mk => (Ok (mk v), w)
              | None => (Raise (AttributeError name), w)
              end
          end
      | None => (Raise (AttributeError name), w)
      end
  | VLogger _ =>
      match logger_attr name with
      | Some mk => (Ok (mk v), w)
      | None => (Raise (AttributeError name), w)
      end
  | _ => (Raise (AttributeError name), w)
  end.

(** [e.name] where [e] already evaluated to a slot: function and method
    objects carry none of the attributes this program asks for. *)
Definition slot_getattr (s : slot) (name : string) : M slot :=
  match s with
  | Data v => getattr v name
  | _ => raise (AttributeError name)
  end.

(** A slot used as an operand or stored: only data is representable;
    no name read this way is defined by a class (see [class_attr]). *)
Definition slot_value (s : slot) : M value :=
  match s with
  | Data v => ret v
  | _ => raise (TypeError "method object used as data")
  end.

Definition alloc (o : obj) : M nat := λ w,
  (Ok (length (heap w)), with_heap (heap w ++ [o]) w).

Definition setattr (a : nat) (name : string) (v : value) : M unit := λ w,
  match heap w !! a with
  | Some o =>
      (Ok (), with_heap (<[a := Obj (cls o) (<[name := v]> (attrs o))]> (heap w)) w)
  | None => (Raise (AttributeError name), w)
  end.

(** ** Builtins and library calls *)

(** [x == s] for a str literal [s]. *)
Definition py_eq_str (x : value) (s : string) : bool :=
  match x with
  | VStr s' => bool_decide (s' = s)
  | _ => false
  end.

(** [**x]: the argument must be a mapping. *)
Definition as_mapping (x : value) : result (gmap string value) :=
  match x with
  | VDict d => Ok d
  | VODict items => Ok (list_to_map items)
  | _ => Raise (TypeError "argument after ** must be a mapping")
  end.

(** [iter(x)] for the sequences the model covers. *)
Definition py_iter (x : value) : result (list value) :=
  match x with
  | VList l | VTuple l => Ok l
  | _ => Raise (TypeError "object is not iterable")
  end.

(** [x[k]] with a str key. *)
Definition subscript (x : value) (k : string) : result value :=
  match x with
  | VDict d =>
      match d !! k with Some v => Ok v | None => Raise (KeyError k) end
  | VODict items =>
      match (list_to_map items : gmap string value) !! k with
      | Some v => Ok v
      | None => Raise (KeyError k)
      end
  | _ => Raise (TypeError "object is not subscriptable with a str")
  end.

(** datetime.max is 9999-12-31T23:59:59.999999. *)
Definition datetime_end : Z := 3652059 * 86400000000.

(** [datetime - y]. *)
Definition datetime_sub (t : Z) (y : value) : result value :=
  match y with
  | VTimedelta d =>
      if bool_decide (0 ≤ t - d < datetime_end) then Ok (VDatetime (t - d))
      else Raise OverflowError
  | VDatetime t' => Ok (VTimedelta (t - t'))
  | _ => Raise (TypeError "unsupported operand type(s) for -")
  end.

(** [timedelta(days=n)] for an int [n]. *)
Definition timedelta_days (n : Z) : result value :=
  if bool_decide (Z.abs n ≤ 999999999) then Ok (VTimedelta (n * 86400000000))
  else Raise OverflowError.

(** shapely: coordinates are converted with float(). *)
Definition coord (v : value) : result Q :=
  match v with
  | VInt z => Ok (inject_Z z)
  | VFloat q => Ok q
  | VBool b => Ok (inject_Z (if b then 1 else 0))
  | _ => Raise (TypeError "float() argument must be a real number")
  end.

Definition point (p : value * value) : result (Q * Q) :=
  rbind (coord p.1) (λ x, rbind (coord p.2) (λ y, Ok (x, y))).

Definition same_point (p q : Q * Q) : bool :=
  Qeq_bool p.1 q.1 && Qeq_bool p.2 q.2.

(** A ring is stored closed: the first point is repeated at the end
    unless it is there already. *)
Definition close_ring (r : list (Q * Q)) : list (Q * Q) :=
  match r with
  | [] => []
  | p :: _ => if same_point p (List.last r p) then r else r ++ [p]
  end.

(** [shapely.geometry.Polygon(shell)]: no points give the empty polygon;
    otherwise the closed ring needs at least 4 coordinates.  The points
    are kept in the order given. *)
Definition Polygon (shell : list (value * value)) : result polygon :=
  rbind (traverse point shell) (λ r,
    match r with
    | [] => Ok (MkPolygon [])
    | _ =>
        if bool_decide (length (close_ring r) < 4)%nat
        then Raise (ValueError "A linearring requires at least 4 coordinates.")
        else Ok (MkPolygon (close_ring r))
    end).

(** ** Positional arguments of [initial_keywords]

    [def initial_keywords(self, region, sensor='Sentinel-2',
    data_type=None, cloud_coverage=(0, 75), extra={})], declared
    [@staticmethod]: the caller's arguments fill the parameters from the
    left, [self] included. *)

Record ik_args := IkArgs {
  p_self : value;
  p_region : value;
  p_sensor : value;
  p_data_type : value;
  p_cloud_coverage : value;
  p_extra : value }.

Definition default_sensor : value := VStr "Sentinel-2".
Definition default_cloud_coverage : value := VTuple [VInt 0; VInt 75].
Definition default_crs : value := VStr "epsg:4326".

Definition bind_initial_keywords (args : list value) : result ik_args :=
  match args with
  | self :: region :: rest =>
      match rest with
      | [] =>
          Ok (IkArgs self region default_sensor VNone default_cloud_coverage (VDict ∅))
      | [sensor] =>
          Ok (IkArgs self region sensor VNone default_cloud_coverage (VDict ∅))
      | [sensor; data_type] =>
          Ok (IkArgs self region sensor data_type default_cloud_coverage (VDict ∅))
      | [sensor; data_type; cloud_coverage] =>
          Ok (IkArgs self region sensor data_type cloud_coverage (VDict ∅))
      | [sensor; data_type; cloud_coverage; extra] =>
          Ok (IkArgs self region sensor data_type cloud_coverage extra)
      | _ => Raise (TypeError "initial_keywords() takes from 2 to 6 positional arguments")
      end
  | _ => Raise (TypeError "initial_keywords() missing required positional arguments")
  end.

(** ** The program *)

Section Program.
Context (E : env).

Definition utcnow : M Z := λ w,
  (Ok (utc_clock E (ticks w)), with_ticks (S (ticks w)) w).

(** A free name of the module: bound from outside or a NameError. *)
Definition load_global (name : string) : M value :=
  match globals E !! name with
  | Some v => ret v
  | None => raise (NameError name)
  end.

Definition emit (lvl : level) (msg : string) : M unit := λ w,
  (Ok (), with_log (log w ++ [(lvl, msg)]) w).

(** [GeoDataFrame(index=..., crs=..., geometry=...)]. *)
Definition GeoDataFrame (index : list Z) (crs : value) (geometry : list polygon)
  : result geodataframe :=
  if valid_crs E crs then Ok (MkFrame index crs geometry) else Raise CRSError.

(** [frame.to_file(filename=..., driver='GeoJSON')] writes the file and
    returns None. *)
Definition to_file (frame : geodataframe) (filename : string) : M value := λ w,
  if writable w then (Ok VNone, with_files (<[filename := frame]> (files w)) w)
  else (Raise OSError, w).

(** Calling what an attribute lookup produced.  Looking a name up gives
    data or the callable defined under that name (lemma
    [getattr_resolves]), so the last case of each definition below does
    not arise. *)
Definition call_format_query (f : slot) (keywords : gmap string value) : M string :=
  match f with
  | Plain F_format_query => lift (api_format_query E keywords)
  | Data _ => raise (TypeError "object is not callable")
  | _ => raise (TypeError "got an unexpected keyword argument")
  end.

Definition call_check_query_length (f : slot) (query : string) : M Q :=
  match f with
  | Plain F_check_query_length => ret (api_check_query_length E query)
  | Data _ => raise (TypeError "object is not callable")
  | _ => raise (TypeError "wrong number of positional arguments")
  end.

Definition call_query (f : slot) (keywords : gmap string value)
  : M (list (string * value)) :=
  match f with
  | Bound F_query _ => λ w,
      (api_query E keywords, with_requests (requests w ++ [keywords]) w)
  | Data _ => raise (TypeError "object is not callable")
  | _ => raise (TypeError "got an unexpected keyword argument")
  end.

Definition call_log (f : slot) (msg : string) : M unit :=
  match f with
  | Bound (F_log lvl) _ => emit lvl msg
  | Data _ => raise (TypeError "object is not callable")
  | _ => raise (TypeError "wrong number of positional arguments")
  end.

(** *** [Sentinel.__init__] (lines 23-38); [days_backwards] is an int.
    The object becomes visible only when the constructor returns, so
    the one step that can raise is taken first. *)
Definition __init__ (ref_datetime : value) (days_backwards : Z)
    (id_execution dest_dir api_user api_password : value) : M value :=
  count_days_buffer <- lift (timedelta_days days_backwards) ;;
  a <- alloc (Obj Sentinel
         (<["password" := api_password]>
         (<["user" := api_user]>
         (<["count_days_buffer" := count_days_buffer]>
         (<["id_execution" := id_execution]>
         (<["dest_dir" := dest_dir]>
         (<["days_backwards" := VInt days_backwards]>
         (<["ref_datetime" := ref_datetime]> ∅)))))))) ;;
  ret (VRef a).

(** *** [Sentinel.api] (lines 39-53) *)
Definition api (self : value) : M value :=
  su <- getattr self "user" ;;
  user <- slot_value su ;;
  sp <- getattr self "password" ;;
  password <- slot_value sp ;;
  a <- alloc (Obj SentinelAPI
         (<["show_progressbars" := VBool true]>
         (<["password" := password]>
         (<["user" := user]>
         (<["logger" := VLogger "sentinelsat.SentinelAPI"]> ∅))))) ;;
  logger <- load_global "logger" ;;
  setattr a "logger" logger ;;;
  ret (VRef a).

(** *** [Sentinel.coords_to_polygon] (lines 55-81) *)
Definition coords_to_polygon (self lat_list lon_list crs : value) : M value :=
  lon <- lift (py_iter lon_list) ;;
  lat <- lift (py_iter lat_list) ;;
  polygon_geom <- lift (Polygon (zip lon lat)) ;;
  polygon <- lift (GeoDataFrame [0] crs [polygon_geom]) ;;
  geojson_poly <- to_file polygon "polygon.geojson" ;;
  ret geojson_poly.

(** *** [Sentinel.initial_keywords] (lines 83-138) *)

(** Lines 121-126: the entries written out in the dict display, in the
    order they are inserted. *)
Definition base_keywords (a : ik_args) (date : value) : gmap string value :=
  <["tileid" := VNone]>
  (<["producttype" := p_data_type a]>
  (<["platformname" := p_sensor a]>
  (<["date" := date]>
  (<["area" := p_region a]> ∅)))).

(** Lines 121-130: the [keywords] dictionary; [**extra] comes last in
    the display, so its entries replace those before it. *)
Definition ik_keywords (a : ik_args) : M (gmap string value) :=
  t1 <- utcnow ;;
  sb <- getattr (p_self a) "count_days_buffer" ;;
  buffer <- slot_value sb ;;
  start <- lift (datetime_sub t1 buffer) ;;
  t2 <- utcnow ;;
  extra <- lift (as_mapping (p_extra a)) ;;
  let keywords := extra ∪ base_keywords a (VTuple [start; VDatetime t2]) in
  if py_eq_str (p_sensor a) "Sentinel-2" then
    cloud_percent_accept <- load_global "cloud_percent_accept" ;;
    ret (<["cloudcoverpercentage" := cloud_percent_accept]> keywords)
  else ret keywords.

(** Line 132: [self.api.format_query] applied to [**keywords]. *)
Definition ik_query (a : ik_args) (keywords : gmap string value) : M string :=
  sa <- getattr (p_self a) "api" ;;
  f <- slot_getattr sa "format_query" ;;
  call_format_query f keywords.

(** Line 134: [self.api.check_query_length(query)]. *)
Definition ik_ratio (a : ik_args) (query : string) : M Q :=
  sa <- getattr (p_self a) "api" ;;
  f <- slot_getattr sa "check_query_length" ;;
  call_check_query_length f query.

Definition too_long : string := "The query string is too long.".

Definition initial_keywords (a : ik_args) : M value :=
  keywords <- ik_keywords a ;;
  query <- ik_query a keywords ;;
  ratio <- ik_ratio a query ;;
  if Qlt_le_dec 1 ratio then
    logger <- load_global "logger" ;;
    f <- getattr logger "error" ;;
    call_log f too_long ;;;
    raise (ValueError ("The query string is too long. Query=" +:+ query))
  else ret (VDict keywords).

(** Calls through attribute lookup, as [search_products] makes them. *)
Definition call_coords_to_polygon (f : slot) (lat_list lon_list : value) : M value :=
  match f with
  | Bound F_coords_to_polygon recv => coords_to_polygon recv lat_list lon_list default_crs
  | Data _ => raise (TypeError "object is not callable")
  | _ => raise (TypeError "wrong number of positional arguments")
  end.

Definition call_initial_keywords (f : slot) (args : list value) : M value :=
  match f with
  | Plain F_initial_keywords =>
      a <- lift (bind_initial_keywords args) ;;
      initial_keywords a
  | Data _ => raise (TypeError "object is not callable")
  | _ => raise (TypeError "wrong number of positional arguments")
  end.

(** [str(titles)] for a list. *)
Definition repr_list (l : list value) : string :=
  "[" +:+ String.concat ", " (map (py_repr E) l) +:+ "]".

(** *** [Sentinel.search_products] (lines 140-172) *)

(** Line 164: [self.coords_to_polygon(lat_list, lon_list)]. *)
Definition sp_region (self : value) : M value :=
  fc <- getattr self "coords_to_polygon" ;;
  lat_list <- load_global "lat_list" ;;
  lon_list <- load_global "lon_list" ;;
  call_coords_to_polygon fc lat_list lon_list.

(** Lines 166-172: the search, the log line and the return. *)
Definition sp_report (self keywords : value) : M value :=
  sa <- getattr self "api" ;;
  fq <- slot_getattr sa "query" ;;
  kw <- lift (as_mapping keywords) ;;
  products <- call_query fq kw ;;
  titles <- lift (traverse (λ i, subscript i "title") (map snd products)) ;;
  logger <- load_global "logger" ;;
  fi <- getattr logger "info" ;;
  call_log fi ("Were found " +:+ pretty (length titles) +:+ " -> " +:+ repr_list titles) ;;;
  ret (VODict products).

Definition search_products (self cloud_coverage data_type extra : value) : M value :=
  region <- sp_region self ;;
  fk <- getattr self "initial_keywords" ;;
  keywords <- call_initial_keywords fk [region; cloud_coverage; extra] ;;
  sp_report self keywords.

End Program.


(** ** Notions used to state the properties *)

(** An action that leaves the world as it found it. *)
Definition readonly {A} (m : M A) : Prop := ∀ w, (m w).2 = w.

(** An action that keeps [R] between the world before and after. *)
Definition preserves {A} (R : relation world) (m : M A) : Prop :=
  ∀ w, R w (m w).2.

(** [same f]: the component [f] of the world is unchanged. *)
Definition same {B} (f : world → B) : relation world := λ w w', f w' = f w.

(** Every object of the earlier heap is still there, unchanged. *)
Definition heap_kept : relation world := λ w w', heap w `prefix_of` heap w'.

(** [obj.name] as stored in the instance dictionary at address [a]. *)
Definition field (w : world) (a : nat) (name : string) : option value :=
  heap w !! a ≫= λ o, attrs o !! name.

(** The attributes [__init__] assigns (lines 32-38). *)
Definition constructor_fields : list string :=
  ["ref_datetime"; "days_backwards"; "dest_dir"; "id_execution";
   "count_days_buffer"; "user"; "password"].

(** The keys of the dict display of lines 121-126. *)
Definition base_keys : list string :=
  ["area"; "date"; "platformname"; "producttype"; "tileid"].

(** End minus start of a [(start, end)] pair of datetimes. *)
Definition window_length (date : value) : option Z :=
  match date with
  | VTuple [VDatetime start; VDatetime stop] => Some (stop - start)
  | _ => None
  end.

(** [0 <= low <= high <= 100] for a [(low, high)] pair of ints. *)
Definition cloud_coverage_in_range (cc : value) : bool :=
  match cc with
  | VTuple [VInt low; VInt high] => bool_decide (0 ≤ low ∧ low ≤ high ∧ high ≤ 100)
  | _ => false
  end.

Definition with_cloud_coverage (cc : value) (a : ik_args) : ik_args :=
  IkArgs (p_self a) (p_region a) (p_sensor a) (p_data_type a) cc (p_extra a).

(** [s in t] for strings. *)
Fixpoint contains (s t : string) : bool :=
  String.prefix s t ||
  match t with
  | EmptyString => false
  | String _ t' => contains s t'
  end.

(** The records logged between two worlds, and whether one of them
    carries the query string. *)
Definition logged_since (w w' : world) : list (level * string) :=
  drop (length (log w)) (log w').

Definition query_is_logged (query : string) (w w' : world) : Prop :=
  ∃ rec, rec ∈ logged_since w w' ∧ contains query rec.2 = true.

(** ** Sample surroundings

    A substitute provider whose formatted query lists the keyword names
    and whose length ratio is the query length over [limit]; a clock that
    advances 7 microseconds between readings; a module namespace in which
    the free names are bound. *)

Definition sample_clock (n : nat) : Z := 63800000000000000 + 7 * Z.of_nat n.

Definition sample_format_query (keywords : gmap string value) : result string :=
  Ok (String.concat " AND " (map fst (map_to_list keywords))).

Definition sample_globals : gmap string value :=
  <["lon_list" := VList [VInt 0; VInt 1; VInt 1; VInt 0]]>
  (<["lat_list" := VList [VInt 0; VInt 0; VInt 1; VInt 1]]>
  (<["logger" := VLogger "sentilogging"]> ∅)).

Definition sample_globals_cloud : gmap string value :=
  <["cloud_percent_accept" := VTuple [VInt 0; VInt 75]]> sample_globals.

Definition sample_env (limit : positive) (g : gmap string value) : env :=
  Env sample_clock (λ _, true) sample_format_query
      (λ query, Z.of_nat (String.length query) # limit)
      (λ _, Ok []) (λ _, "?") g.

Definition E0 : env := sample_env 3938 sample_globals.
Definition E_cloud : env := sample_env 3938 sample_globals_cloud.
Definition E_short : env := sample_env 10 sample_globals.
Definition E_bare : env := sample_env 3938 ∅.

Definition fresh_world : world := World [] 0 [] ∅ true [].

(** [s = Sentinel(ref_datetime, days_backwards=10, ...)]: [s] is at
    address 0. *)
Definition instance_world : world :=
  (__init__ (VDatetime 63800000000000000) 10 VNone (VStr "/data")
     (VStr "user") (VStr "secret") fresh_world).2.

(** Then [s.api = s.api()]: the client is at address 1 and the instance
    attribute [api] hides the method. *)
Definition client_world : world :=
  (setattr 0 "api" (VRef 1) (api E0 (VRef 0) instance_world).2).2.

Definition ten_days : Z := 10 * 86400000000.

(** Arguments of the composer used in the examples. *)
Definition args_override : ik_args :=
  IkArgs (VRef 0) (VStr "POLYGON((0 0,1 0,1 1,0 1,0 0))") (VStr "Sentinel-3") VNone
    (VTuple [VInt 0; VInt 30])
    (VDict (<["platformname" := VStr "Sentinel-1"]> ∅)).

Definition args_producttype : ik_args :=
  IkArgs (VRef 0) (VStr "POLYGON((0 0,1 0,1 1,0 1,0 0))") (VStr "Sentinel-1") VNone
    (VTuple [VInt 0; VInt 30])
    (VDict (<["producttype" := VStr "X"]> ∅)).

Definition args_extra_cloud : ik_args :=
  IkArgs (VRef 0) (VStr "POLYGON((0 0,1 0,1 1,0 1,0 0))") (VStr "Sentinel-1") VNone
    (VTuple [VInt 0; VInt 30])
    (VDict (<["cloudcoverpercentage" := VTuple [VInt 0; VInt 10]]> ∅)).

(** [extra = {'producttype': 'X'}], everything else by default. *)
Definition args_example : ik_args :=
  IkArgs (VRef 0) (VStr "POLYGON((0 0,1 0,1 1,0 1,0 0))") default_sensor VNone
    default_cloud_coverage
    (VDict (<["producttype" := VStr "X"]> ∅)).

Definition args_sentinel2 (cloud_coverage : value) : ik_args :=
  IkArgs (VRef 0) (VStr "POLYGON((0 0,1 0,1 1,0 1,0 0))") (VStr "Sentinel-2") VNone
    cloud_coverage (VDict ∅).

(** The mapping and the world a run ends with. *)
Definition mapping_of (r : result value * world) : gmap string value :=
  match r.1 with
  | Ok (VDict d) => d
  | _ => ∅
  end.

Definition square_lat : value := VList [VInt 0; VInt 0; VInt 1; VInt 1].
Definition square_lon : value := VList [VInt 0; VInt 1; VInt 1; VInt 0].
Definition square_ring : list (Q * Q) :=
  [(0, 0); (1, 0); (1, 1); (0, 1); (0, 0)]%Q.

(** Runs of the composer on the samples. *)
Definition run_override : result value * world :=
  initial_keywords E0 args_override client_world.
Definition run_producttype : result value * world :=
  initial_keywords E0 args_producttype client_world.
Definition run_extra_cloud : result value * world :=
  initial_keywords E0 args_extra_cloud client_world.
Definition run_example : result value * world :=
  initial_keywords E_cloud args_example client_world.
Definition run_sentinel2 : result value * world :=
  initial_keywords E_cloud (args_sentinel2 (VTuple [VInt 0; VInt 30])) client_world.

Definition run_out_of_range : result value * world :=
  initial_keywords E_cloud (args_sentinel2 (VTuple [VInt 200; VInt (-5)])) client_world.

(** The composer against a provider whose limit is 10 characters. *)
Definition short_keywords : gmap string value :=
  match (ik_keywords E_short args_producttype client_world).1 with
  | Ok kw => kw
  | Raise _ => ∅
  end.
Definition short_world : world :=
  (ik_keywords E_short args_producttype client_world).2.
Definition short_query : string :=
  match (ik_query E_short args_producttype short_keywords short_world).1 with
  | Ok q => q
  | Raise _ => ""
  end.
Definition short_ratio : Q :=
  api_check_query_length E_short short_query.
Definition run_short : result value * world :=
  initial_keywords E_short args_producttype client_world.

(** Runs of the polygon builder on the samples. *)
Definition run_square : result value * world :=
  coords_to_polygon E0 (VRef 0) square_lat square_lon default_crs instance_world.
Definition run_unequal : result value * world :=
  coords_to_polygon E0 (VRef 0) (VList [VInt 0; VInt 0; VInt 1]) square_lon
    default_crs instance_world.

(** Runs of the search on the samples: a provider with no matching
    product, on the plain instance and on the instance whose [api]
    attribute is the client. *)
Definition run_search : result value * world :=
  search_products E0 (VRef 0) (VTuple [VInt 0; VInt 30]) VNone (VDict ∅) instance_world.
Definition run_search_bare : result value * world :=
  search_products E_bare (VRef 0) (VTuple [VInt 0; VInt 30]) VNone (VDict ∅) instance_world.
Definition run_search_client : result value * world :=
  search_products E0 (VRef 0) (VTuple [VInt 0; VInt 30]) VNone (VDict ∅) client_world.

Definition sample_instance : obj :=
  match heap instance_world !! 0%nat with
  | Some o => o
  | None => Obj Namespace ∅
  end.

(** The parameters of [initial_keywords] as [search_products] fills
    them. *)
Definition shifted_args (region cloud_coverage extra : value) : ik_args :=
  IkArgs region cloud_coverage extra VNone default_cloud_coverage (VDict ∅).

Definition shifted_keywords : gmap string value :=
  match (ik_keywords E0 (shifted_args (VRef 0) (VTuple [VInt 0; VInt 30]) (VDict ∅))
           client_world).1 with
  | Ok kw => kw
  | Raise _ => ∅
  end.

(** ** Further notions and samples *)

(** A list of ints as a Python list, and the points it pairs to. *)
Definition int_list (l : list Z) : value := VList (VInt <$> l).

Definition pairs (lon lat : list Z) : list (Q * Q) :=
  zip (inject_Z <$> lon) (inject_Z <$> lat).

(** The working directory of [instance_world], read-only. *)
Definition readonly_dir_world : world :=
  World (heap instance_world) 0 [] ∅ false [].

(** [Sentinel(ref_datetime, days_backwards=999999999)]. *)
Definition far_world : world :=
  (__init__ (VDatetime 63800000000000000) 999999999 VNone (VStr "/data")
     (VStr "user") (VStr "secret") fresh_world).2.

(** A provider whose limit is exactly the length of the sample query. *)
Definition E_exact : env := sample_env 57 sample_globals.

(** The client of [client_world], and a world in which it was asked
    nothing yet; products as the provider returns them. *)
Definition titled (title : string) : value :=
  VDict (<["title" := VStr title]> ∅).

Definition E_products (products : list (string * value)) : env :=
  Env sample_clock (λ _, true) sample_format_query
      (λ query, Z.of_nat (String.length query) # 3938)
      (λ _, Ok products) (λ v, match v with VStr s => "'" +:+ s +:+ "'" | _ => "?" end)
      sample_globals.

Definition two_products : list (string * value) :=
  [("id-1", titled "S2A_T1"); ("id-2", titled "S2B_T2")].

Definition untitled_products : list (string * value) :=
  [("id-1", titled "S2A_T1"); ("id-2", VDict ∅)].

(** The client [api] builds (lines 49-52). *)
Definition client_obj (logger user password : value) : obj :=
  Obj SentinelAPI
    (<["logger" := logger]>
    (<["show_progressbars" := VBool true]>
    (<["password" := password]>
    (<["user" := user]>
    (<["logger" := VLogger "sentinelsat.SentinelAPI"]> ∅))))).

(** More arguments for the composer: a key of [extra] that is no base
    key, and sensor 'Sentinel-2' with [extra] holding the cloud key. *)
Definition args_orbit : ik_args :=
  IkArgs (VRef 0) (VStr "POLYGON((0 0,1 0,1 1,0 1,0 0))") (VStr "Sentinel-1") VNone
    (VTuple [VInt 0; VInt 30])
    (VDict (<["orbitdirection" := VStr "DESCENDING"]> ∅)).

Definition args_s2_extra_cloud : ik_args :=
  IkArgs (VRef 0) (VStr "POLYGON((0 0,1 0,1 1,0 1,0 0))") (VStr "Sentinel-2") VNone
    (VTuple [VInt 0; VInt 30])
    (VDict (<["cloudcoverpercentage" := VTuple [VInt 0; VInt 10]]> ∅)).

Definition run_orbit : result value * world :=
  initial_keywords E0 args_orbit client_world.
Definition run_s2_extra_cloud : result value * world :=
  initial_keywords E_cloud args_s2_extra_cloud client_world.

(** The call expression of line 165 with any argument list:
    [self.initial_keywords( *args)]. *)
Definition invoke_initial_keywords (E : env) (self : value) (args : list value)
  : M value :=
  fk <- getattr self "initial_keywords" ;;
  call_initial_keywords E fk args.

Definition args_far : ik_args :=
  IkArgs (VRef 0) (VStr "POLYGON((0 0,1 0,1 1,0 1,0 0))") (VStr "Sentinel-1") VNone
    (VTuple [VInt 0; VInt 30]) (VDict ∅).

(** Providers for the report of lines 166-172: one with two titled
    products, one with a product that has no title, one that fails. *)
Definition E_two : env := E_products two_products.
Definition E_untitled : env := E_products untitled_products.
Definition E_down : env :=
  Env sample_clock (λ _, true) sample_format_query
      (λ query, Z.of_nat (String.length query) # 3938)
      (λ _, Raise (ProviderError "503")) (λ _, "?") sample_globals.

Definition sample_client : obj :=
  match heap client_world !! 1%nat with
  | Some o => o
  | None => Obj Namespace ∅
  end.

(** * Properties *)

Create HintDb readonly.

(** ** Reasoning about [M] *)

Lemma bind_Ok {A B} (m : M A) (k : A → M B) w a w1 :
  m w = (Ok a, w1) → bind m k w = k a w1.
Proof. unfold bind. by intros ->. Qed.

Lemma bind_Raise {A B} (m : M A) (k : A → M B) w e w1 :
  m w = (Raise e, w1) → bind m k w = (Raise e, w1).
Proof. unfold bind. by intros ->. Qed.

Lemma bind_Ok_inv {A B} (m : M A) (k : A → M B) w b w' :
  bind m k w = (Ok b, w') →
  ∃ a w1, m w = (Ok a, w1) ∧ k a w1 = (Ok b, w').
Proof.
  unfold bind. destruct (m w) as [[a|e] w1]; [eauto | discriminate].
Qed.

Lemma lift_Ok_inv {A} (r : result A) w a w' :
  lift r w = (Ok a, w') → r = Ok a ∧ w' = w.
Proof. unfold lift. by intros [= -> ->]. Qed.

Lemma ret_Ok_inv {A} (x : A) w a w' :
  ret x w = (Ok a, w') → a = x ∧ w' = w.
Proof. unfold ret. by intros [= -> ->]. Qed.

Lemma readonly_preserves {A} (R : relation world) `{!Reflexive R} (m : M A) :
  readonly m → preserves R m.
Proof. intros Hm w. by rewrite Hm. Qed.

Lemma preserves_bind {A B} (R : relation world) `{!Transitive R}
    (m : M A) (k : A → M B) :
  preserves R m → (∀ a, preserves R (k a)) → preserves R (bind m k).
Proof.
  intros Hm Hk w. unfold bind. specialize (Hm w).
  destruct (m w) as [[a|e] w1]; simpl in *; [|done].
  etrans; [exact Hm | apply Hk].
Qed.

Lemma readonly_bind {A B} (m : M A) (k : A → M B) :
  readonly m → (∀ a, readonly (k a)) → readonly (bind m k).
Proof.
  intros Hm Hk w. unfold bind. specialize (Hm w).
  destruct (m w) as [[a|e] w1]; simpl in *; subst; [apply Hk | done].
Qed.

Lemma readonly_ret {A} (a : A) : readonly (ret a).
Proof. done. Qed.
Lemma readonly_raise {A} e : readonly (@raise A e).
Proof. done. Qed.
Lemma readonly_lift {A} (r : result A) : readonly (lift r).
Proof. done. Qed.

Lemma readonly_getattr v name : readonly (getattr v name).
Proof. intros w. unfold getattr. repeat case_match; done. Qed.

Lemma readonly_slot_getattr s name : readonly (slot_getattr s name).
Proof. destruct s; [apply readonly_getattr | done..]. Qed.

Lemma readonly_slot_value s : readonly (slot_value s).
Proof. by destruct s. Qed.

#[export] Hint Resolve readonly_ret readonly_raise readonly_lift readonly_getattr
  readonly_slot_getattr readonly_slot_value : readonly.

#[export] Instance same_preorder {B} (f : world → B) : PreOrder (same f).
Proof. split; [done | intros x y z Hxy Hyz; unfold same in *; congruence]. Qed.

#[export] Instance heap_kept_preorder : PreOrder heap_kept.
Proof.
  split; [intros w; unfold heap_kept; done|].
  intros x y z Hxy Hyz. unfold heap_kept in *. by etrans.
Qed.

Lemma heap_kept_lookup w w' a o :
  heap_kept w w' → heap w !! a = Some o → heap w' !! a = Some o.
Proof. intros Hk Ha. by eapply prefix_lookup_Some. Qed.

(** ** The query composer, step by step *)

Lemma py_eq_str_true x s : py_eq_str x s = true ↔ x = VStr s.
Proof.
  destruct x; simpl; try (split; [discriminate | congruence]).
  rewrite bool_decide_eq_true. split; [by intros -> | by intros [= ->]].
Qed.

Lemma py_eq_str_false x s : py_eq_str x s = false ↔ x ≠ VStr s.
Proof.
  rewrite <- not_true_iff_false, py_eq_str_true. done.
Qed.

(** Attribute lookup reads the heap and nothing else. *)
Lemma getattr_heap v name w1 w2 :
  heap w1 = heap w2 → (getattr v name w1).1 = (getattr v name w2).1.
Proof.
  intros Hh. unfold getattr. rewrite Hh. repeat case_match; done.
Qed.

Lemma getattr_Ok_inv v name w s w' :
  getattr v name w = (Ok s, w') → (getattr v name w).1 = Ok s ∧ w' = w.
Proof.
  intros H. pose proof (readonly_getattr v name w) as Hro.
  rewrite H in Hro |- *. done.
Qed.

(** A name resolves to data or to what the class defines under it. *)
Lemma getattr_resolves v name w s :
  (getattr v name w).1 = Ok s →
  (∃ x, s = Data x) ∨
  (∃ c mk, class_attr c name = Some mk ∧ s = mk v) ∨
  (∃ mk, logger_attr name = Some mk ∧ s = mk v).
Proof. unfold getattr. repeat case_match; simpl; intros [= <-]; eauto 10. Qed.

Ltac resolve_name H :=
  apply getattr_resolves in H as [?|[(c & mk & Hc & ->)|(mk & Hl & ->)]];
  [ by left
  | destruct c; cbv in Hc; try discriminate Hc; injection Hc as <-; by right
  | cbv in Hl; try discriminate Hl; injection Hl as <-; by right ].

Lemma getattr_resolves_calls v w s :
  ((getattr v "format_query" w).1 = Ok s →
     (∃ x, s = Data x) ∨ s = Plain F_format_query) ∧
  ((getattr v "check_query_length" w).1 = Ok s →
     (∃ x, s = Data x) ∨ s = Plain F_check_query_length) ∧
  ((getattr v "query" w).1 = Ok s →
     (∃ x, s = Data x) ∨ s = Bound F_query v) ∧
  ((getattr v "coords_to_polygon" w).1 = Ok s →
     (∃ x, s = Data x) ∨ s = Bound F_coords_to_polygon v) ∧
  ((getattr v "initial_keywords" w).1 = Ok s →
     (∃ x, s = Data x) ∨ s = Plain F_initial_keywords) ∧
  ((getattr v "error" w).1 = Ok s →
     (∃ x, s = Data x) ∨ s = Bound (F_log ERROR) v) ∧
  ((getattr v "info" w).1 = Ok s →
     (∃ x, s = Data x) ∨ s = Bound (F_log INFO) v).
Proof. repeat split; intros H; resolve_name H. Qed.

(** The mapping the composer builds (lines 121-130), when it builds one. *)
Lemma ik_keywords_Ok_inv E a w kw w' :
  ik_keywords E a w = (Ok kw, w') →
  ∃ buffer start extra,
    (getattr (p_self a) "count_days_buffer" w).1 = Ok (Data buffer) ∧
    datetime_sub (utc_clock E (ticks w)) buffer = Ok start ∧
    as_mapping (p_extra a) = Ok extra ∧
    w' = with_ticks (S (S (ticks w))) w ∧
    let merged :=
      extra ∪ base_keywords a
        (VTuple [start; VDatetime (utc_clock E (S (ticks w)))]) in
    (p_sensor a = VStr "Sentinel-2" ∧
       ∃ v, globals E !! "cloud_percent_accept" = Some v ∧
            kw = <["cloudcoverpercentage" := v]> merged)
    ∨ (p_sensor a ≠ VStr "Sentinel-2" ∧ kw = merged).
Proof.
  unfold ik_keywords. intros H.
  apply bind_Ok_inv in H as (t1 & w1 & Ht1 & H).
  unfold utcnow in Ht1. injection Ht1 as <- <-.
  apply bind_Ok_inv in H as (sb & w2 & Hsb & H).
  apply getattr_Ok_inv in Hsb as [Hsb ->].
  rewrite (getattr_heap _ _ _ w) in Hsb by done.
  apply bind_Ok_inv in H as (buffer & w3 & Hb & H).
  destruct sb as [b| |]; try discriminate.
  apply ret_Ok_inv in Hb as [-> ->].
  apply bind_Ok_inv in H as (start & w4 & Hs & H).
  apply lift_Ok_inv in Hs as [Hs ->].
  apply bind_Ok_inv in H as (t2 & w5 & Ht2 & H).
  unfold utcnow in Ht2. injection Ht2 as <- <-.
  apply bind_Ok_inv in H as (extra & w6 & Hex & H).
  apply lift_Ok_inv in Hex as [Hex ->].
  exists b, start, extra. simpl in *.
  destruct (py_eq_str (p_sensor a) "Sentinel-2") eqn:Hsensor.
  - apply py_eq_str_true in Hsensor.
    apply bind_Ok_inv in H as (v & w7 & Hv & H).
    unfold load_global in Hv.
    destruct (globals E !! "cloud_percent_accept") as [g|] eqn:Hg; [|discriminate].
    apply ret_Ok_inv in Hv as [-> ->].
    apply ret_Ok_inv in H as [-> ->].
    repeat split; try done. left. eauto.
  - apply py_eq_str_false in Hsensor.
    apply ret_Ok_inv in H as [-> ->].
    repeat split; try done. by right.
Qed.

Lemma readonly_call_format_query E f kw : readonly (call_format_query E f kw).
Proof. destruct f as [|[]|[]]; done. Qed.

Lemma readonly_call_check_query_length E f q :
  readonly (call_check_query_length E f q).
Proof. destruct f as [|[]|[]]; done. Qed.

Lemma readonly_load_global E name : readonly (load_global E name).
Proof. unfold load_global. by destruct (globals E !! name). Qed.

#[export] Hint Resolve readonly_call_format_query readonly_call_check_query_length
  readonly_load_global : readonly.

Lemma readonly_ik_query E a kw : readonly (ik_query E a kw).
Proof.
  unfold ik_query. repeat (apply readonly_bind; [|intros]); auto with readonly.
Qed.

Lemma readonly_ik_ratio E a q : readonly (ik_ratio E a q).
Proof.
  unfold ik_ratio. repeat (apply readonly_bind; [|intros]); auto with readonly.
Qed.

(** A normal return of the composer: the mapping of lines 121-130, a
    query the provider formatted, and a length ratio of at most 1. *)
Lemma initial_keywords_Ok_inv E a w v w' :
  initial_keywords E a w = (Ok v, w') →
  ∃ kw query ratio,
    ik_keywords E a w = (Ok kw, w') ∧
    ik_query E a kw w' = (Ok query, w') ∧
    ik_ratio E a query w' = (Ok ratio, w') ∧
    (ratio <= 1)%Q ∧
    v = VDict kw.
Proof.
  unfold initial_keywords. intros H.
  apply bind_Ok_inv in H as (kw & w1 & Hkw & H).
  apply bind_Ok_inv in H as (q & w2 & Hq & H).
  pose proof (readonly_ik_query E a kw w1) as Hro.
  rewrite Hq in Hro; simpl in Hro; subst w2.
  apply bind_Ok_inv in H as (r & w3 & Hr & H).
  pose proof (readonly_ik_ratio E a q w1) as Hro.
  rewrite Hr in Hro; simpl in Hro; subst w3.
  destruct (Qlt_le_dec 1 r) as [Hlt|Hle].
  - apply bind_Ok_inv in H as (lg & w4 & _ & H).
    apply bind_Ok_inv in H as (f & w5 & _ & H).
    apply bind_Ok_inv in H as (u & w6 & _ & H).
    discriminate.
  - apply ret_Ok_inv in H as [-> ->]. by exists kw, q, r.
Qed.

(** ** The keyword mapping *)

Lemma base_keywords_other a date k :
  k ∉ base_keys → base_keywords a date !! k = None.
Proof.
  unfold base_keys, base_keywords. intros Hk.
  rewrite !not_elem_of_cons in Hk. destruct Hk as (? & ? & ? & ? & ? & _).
  by rewrite !lookup_insert_ne, lookup_empty.
Qed.

Lemma cloud_key_not_base : "cloudcoverpercentage" ∉ base_keys.
Proof. unfold base_keys. rewrite !not_elem_of_cons. repeat split; try done. apply not_elem_of_nil. Qed.

Lemma base_key_not_cloud k : k ∈ base_keys → k ≠ "cloudcoverpercentage".
Proof. intros Hk ->. by apply cloud_key_not_base. Qed.

Lemma datetime_sub_timedelta t d start :
  datetime_sub t (VTimedelta d) = Ok start → start = VDatetime (t - d).
Proof. unfold datetime_sub. case_bool_decide; congruence. Qed.

(** On the plain instance [self.api] is the bound method, which has no
    [format_query]: the composer cannot return there.  The samples below
    therefore run on the instance whose [api] attribute holds the
    client. *)
Example plain_instance_has_no_client :
  (initial_keywords E0 args_producttype instance_world).1
  = Raise (AttributeError "format_query").
Proof. vm_compute; reflexivity. Qed.

(** With sensor 'Sentinel-2' line 130 reads the module name
    [cloud_percent_accept]; unbound, that is a NameError. *)
Example sentinel2_reads_module_name :
  (initial_keywords E0 (args_sentinel2 (VTuple [VInt 0; VInt 30])) client_world).1
  = Raise (NameError "cloud_percent_accept").
Proof. vm_compute; reflexivity. Qed.




(** C5 (amended). When [initial_keywords] returns a mapping: unless
    [extra] supplies 'platformname', that key holds the sensor argument;
    unless [extra] supplies 'date', that key holds the pair
    [(now1 - lookback, now2)], where [lookback] is the timedelta stored in
    [self.count_days_buffer] and [now1], [now2] are the two successive
    readings of the UTC clock the composer takes: the end is later than
    the start by the lookback plus the time between the two readings. *)
Theorem C5_platform_and_date E a w d w' extra lookback :
  initial_keywords E a w = (Ok (VDict d), w') →
  as_mapping (p_extra a) = Ok extra →
  (getattr (p_self a) "count_days_buffer" w).1 = Ok (Data (VTimedelta lookback)) →
  (extra !! "platformname" = None → d !! "platformname" = Some (p_sensor a)) ∧
  (extra !! "date" = None →
     d !! "date" =
       Some (VTuple [VDatetime (utc_clock E (ticks w) - lookback);
                     VDatetime (utc_clock E (S (ticks w)))]) ∧
     window_length <$> d !! "date" =
       Some (Some (lookback + (utc_clock E (S (ticks w)) - utc_clock E (ticks w))))).
Proof.
  intros H Hextra Hlook.
  apply initial_keywords_Ok_inv in H as (kw & q & r & Hkw & _ & _ & _ & [= <-]).
  apply ik_keywords_Ok_inv in Hkw
    as (buffer & start & extra' & Hbuf & Hstart & Hex & _ & Hshape).
  rewrite Hextra in Hex. injection Hex as <-.
  rewrite Hlook in Hbuf. injection Hbuf as <-.
  apply datetime_sub_timedelta in Hstart as ->.
  assert (∀ k, k ≠ "cloudcoverpercentage" →
            d !! k = (extra ∪ base_keywords a
              (VTuple [VDatetime (utc_clock E (ticks w) - lookback);
                       VDatetime (utc_clock E (S (ticks w)))])) !! k) as Hd.
  { intros k Hk. destruct Hshape as [(_ & v & _ & ->) | (_ & ->)]; [|done].
    by rewrite lookup_insert_ne. }
  split.
  - intros Hnone. rewrite Hd by done. rewrite lookup_union_r by done.
    unfold base_keywords. rewrite lookup_insert_ne by done.
    rewrite lookup_insert_ne by done. by rewrite lookup_insert_eq.
  - intros Hnone.
    assert (d !! "date" =
      Some (VTuple [VDatetime (utc_clock E (ticks w) - lookback);
                    VDatetime (utc_clock E (S (ticks w)))])) as Hdate.
    { rewrite Hd by done. rewrite lookup_union_r by done.
      unfold base_keywords. rewrite !lookup_insert_ne by done.
      by rewrite lookup_insert_eq. }
    split; [done|]. rewrite Hdate. simpl. do 2 f_equal. lia.
Qed.

(** What the constructor stores. *)
Lemma init_fields ref_datetime days_backwards id_execution dest_dir
    api_user api_password w v w' :
  __init__ ref_datetime days_backwards id_execution dest_dir
    api_user api_password w = (Ok v, w') →
  v = VRef (length (heap w)) ∧
  field w' (length (heap w)) <$> constructor_fields =
    [Some ref_datetime; Some (VInt days_backwards); Some dest_dir;
     Some id_execution; Some (VTimedelta (days_backwards * 86400000000));
     Some api_user; Some api_password].
Proof.
  unfold __init__. intros H.
  apply bind_Ok_inv in H as (buffer & w1 & Hb & H).
  apply lift_Ok_inv in Hb as [Hb ->].
  unfold timedelta_days in Hb. case_bool_decide; [|discriminate].
  injection Hb as <-.
  apply bind_Ok_inv in H as (a & w2 & Ha & H).
  unfold alloc in Ha. injection Ha as <- <-.
  apply ret_Ok_inv in H as [-> ->]. split; [done|].
  unfold field, constructor_fields. simpl.
  rewrite list_lookup_middle by done. simpl.
  repeat (f_equal; [by simplify_map_eq|]). done.
Qed.

(** An instance built with [days_backwards = 10], sensor 'Sentinel-1' and
    [extra = {'producttype': 'X'}]: the window is ten days and the 7
    microseconds between the two clock readings. *)
Lemma C5_witness :
  run_producttype = (Ok (VDict (mapping_of run_producttype)), run_producttype.2) ∧
  as_mapping (p_extra args_producttype) = Ok (<["producttype" := VStr "X"]> ∅) ∧
  (getattr (p_self args_producttype) "count_days_buffer" client_world).1
  = Ok (Data (VTimedelta ten_days)) ∧
  mapping_of run_producttype !! "platformname" = Some (VStr "Sentinel-1") ∧
  mapping_of run_producttype !! "date" =
    Some (VTuple [VDatetime (sample_clock 0 - ten_days); VDatetime (sample_clock 1)]) ∧
  window_length <$> mapping_of run_producttype !! "date" = Some (Some (ten_days + 7)).
Proof.
  assert (run_producttype
          = (Ok (VDict (mapping_of run_producttype)), run_producttype.2)) as Hrun
    by (vm_compute; reflexivity).
  assert ((getattr (p_self args_producttype) "count_days_buffer" client_world).1
          = Ok (Data (VTimedelta ten_days))) as Hlook
    by (vm_compute; reflexivity).
  destruct (C5_platform_and_date E0 args_producttype client_world
              (mapping_of run_producttype) run_producttype.2
              (<["producttype" := VStr "X"]> ∅) ten_days Hrun eq_refl Hlook)
    as [Hplatform Hdate].
  split; [exact Hrun|]. split; [reflexivity|]. split; [exact Hlook|].
  split; [exact (Hplatform eq_refl)|].
  destruct (Hdate eq_refl) as [Hd Hw].
  split; [exact Hd|exact Hw].
Defined.

(** C5 as stated fails: with sensor 'Sentinel-3' and
    [extra = {'platformname': 'Sentinel-1'}] the returned mapping holds
    'Sentinel-1' under 'platformname'; and with a clock that moves between
    the two readings the window is longer than the ten days of lookback. *)
Lemma C5_counterexample :
  run_override.1 = Ok (VDict (mapping_of run_override)) ∧
  mapping_of run_override !! "platformname" ≠ Some (p_sensor args_override) ∧
  field client_world 0 "count_days_buffer" = Some (VTimedelta ten_days) ∧
  window_length <$> mapping_of run_override !! "date" ≠ Some (Some ten_days).
Proof.
  split; [vm_compute; reflexivity|].
  split; [vm_compute; discriminate|].
  split; [vm_compute; reflexivity|].
  vm_compute; discriminate.
Qed.

(** C6. When [initial_keywords] returns a mapping, every base key (area,
    date, platformname, producttype, tileid) that [extra] also has holds
    the value from [extra]. *)
Theorem C6_extra_overrides_base E a w d w' extra k v :
  initial_keywords E a w = (Ok (VDict d), w') →
  p_extra a = VDict extra →
  k ∈ base_keys →
  extra !! k = Some v →
  d !! k = Some v.
Proof.
  intros H Hextra Hk Hv.
  apply initial_keywords_Ok_inv in H as (kw & q & r & Hkw & _ & _ & _ & [= <-]).
  apply ik_keywords_Ok_inv in Hkw
    as (buffer & start & extra' & _ & _ & Hex & _ & Hshape).
  rewrite Hextra in Hex. injection Hex as <-.
  apply base_key_not_cloud in Hk.
  destruct Hshape as [(_ & c & _ & ->) | (_ & ->)].
  - rewrite lookup_insert_ne by done. by apply lookup_union_Some_l.
  - by apply lookup_union_Some_l.
Qed.

(** The example of the specification: [extra = {'producttype': 'X'}]
    with [data_type = None] and every other argument by default. *)
Lemma C6_witness :
  run_example = (Ok (VDict (mapping_of run_example)), run_example.2) ∧
  p_extra args_example = VDict (<["producttype" := VStr "X"]> ∅) ∧
  p_data_type args_example = VNone ∧
  "producttype" ∈ base_keys ∧
  (<["producttype" := VStr "X"]> ∅ : gmap string value) !! "producttype"
  = Some (VStr "X") ∧
  mapping_of run_example !! "producttype" = Some (VStr "X").
Proof.
  assert (run_example = (Ok (VDict (mapping_of run_example)), run_example.2)) as Hrun
    by (vm_compute; reflexivity).
  assert ("producttype" ∈ base_keys) as Hkey
    by (unfold base_keys; rewrite !elem_of_cons; auto 10).
  split; [exact Hrun|]. split; [reflexivity|]. split; [reflexivity|].
  split; [exact Hkey|]. split; [reflexivity|].
  exact (C6_extra_overrides_base E_cloud args_example client_world
           (mapping_of run_example) run_example.2
           (<["producttype" := VStr "X"]> ∅) "producttype" (VStr "X")
           Hrun eq_refl Hkey eq_refl).
Defined.

(** ** Validation in the composer *)

Lemma initial_keywords_ignores_cloud_coverage E a cc w :
  initial_keywords E (with_cloud_coverage cc a) w = initial_keywords E a w.
Proof. destruct a. reflexivity. Qed.

(** C7 (amended). [initial_keywords] does not validate the cloud-coverage
    bounds: whether it raises, and what it raises, is the same for every
    value of the [cloud_coverage] argument, in range or not. *)
Theorem C7_no_cloud_coverage_validation E a cc1 cc2 w :
  raised (initial_keywords E (with_cloud_coverage cc1 a) w).1 =
  raised (initial_keywords E (with_cloud_coverage cc2 a) w).1.
Proof. by rewrite !initial_keywords_ignores_cloud_coverage. Qed.

(** C7 as stated fails: the bounds [(200, -5)] are out of range and the
    composer returns a mapping. *)
Lemma C7_counterexample :
  cloud_coverage_in_range (VTuple [VInt 200; VInt (-5)]) = false ∧
  p_cloud_coverage (args_sentinel2 (VTuple [VInt 200; VInt (-5)]))
  = VTuple [VInt 200; VInt (-5)] ∧
  run_out_of_range.1 = Ok (VDict (mapping_of run_out_of_range)) ∧
  raised run_out_of_range.1 = None.
Proof. repeat split; vm_compute; reflexivity. Qed.

Lemma readonly_run {A} (m : M A) w : readonly m → m w = ((m w).1, w).
Proof. intros Hm. rewrite <- (Hm w) at 3. by destruct (m w). Qed.

Lemma ik_keywords_quiet E a w kw w1 :
  ik_keywords E a w = (Ok kw, w1) →
  log w1 = log w ∧ requests w1 = requests w ∧ heap w1 = heap w.
Proof.
  intros H. apply ik_keywords_Ok_inv in H as (_ & _ & _ & _ & _ & _ & -> & _).
  done.
Qed.

(** C2 (amended). If the composer has built its mapping, the provider has
    formatted it to [query] and reports a length ratio above 1.0 for it,
    and the module name [logger] is bound to a logger, then
    [initial_keywords] raises ValueError with the message
    'The query string is too long. Query=' followed by the query; before
    that it logs the one error line 'The query string is too long.' (the
    query string is in the exception, not in the log); and it sends no
    search to the provider. *)
Theorem C2_too_long_raises E a w kw w1 query ratio name :
  ik_keywords E a w = (Ok kw, w1) →
  (ik_query E a kw w1).1 = Ok query →
  (ik_ratio E a query w1).1 = Ok ratio →
  (1 < ratio)%Q →
  globals E !! "logger" = Some (VLogger name) →
  ∃ w',
    initial_keywords E a w =
      (Raise (ValueError ("The query string is too long. Query=" +:+ query)), w') ∧
    log w' = log w ++ [(ERROR, "The query string is too long.")] ∧
    requests w' = requests w.
Proof.
  intros Hkw Hq Hr Hlt Hlogger.
  destruct (ik_keywords_quiet _ _ _ _ _ Hkw) as (Hlog & Hreq & _).
  unfold initial_keywords.
  rewrite (bind_Ok _ _ _ _ _ Hkw).
  assert (ik_query E a kw w1 = (Ok query, w1)) as Hq'
    by (rewrite (readonly_run _ w1 (readonly_ik_query E a kw)); by rewrite Hq).
  assert (ik_ratio E a query w1 = (Ok ratio, w1)) as Hr'
    by (rewrite (readonly_run _ w1 (readonly_ik_ratio E a query)); by rewrite Hr).
  rewrite (bind_Ok _ _ _ _ _ Hq'), (bind_Ok _ _ _ _ _ Hr').
  destruct (Qlt_le_dec 1 ratio) as [_|Hle]; [|by apply Qlt_not_le in Hlt].
  unfold load_global. rewrite Hlogger.
  eexists. split; [reflexivity|]. simpl. by rewrite Hlog, Hreq.
Qed.

Lemma C2_witness :
  ik_keywords E_short args_producttype client_world = (Ok short_keywords, short_world) ∧
  (ik_query E_short args_producttype short_keywords short_world).1 = Ok short_query ∧
  (ik_ratio E_short args_producttype short_query short_world).1 = Ok short_ratio ∧
  (1 < short_ratio)%Q ∧
  globals E_short !! "logger" = Some (VLogger "sentilogging") ∧
  ∃ w',
    run_short =
      (Raise (ValueError ("The query string is too long. Query=" +:+ short_query)), w') ∧
    log w' = log client_world ++ [(ERROR, "The query string is too long.")] ∧
    requests w' = requests client_world.
Proof.
  assert (ik_keywords E_short args_producttype client_world
          = (Ok short_keywords, short_world)) as Hkw by (vm_compute; reflexivity).
  assert ((ik_query E_short args_producttype short_keywords short_world).1
          = Ok short_query) as Hq by (vm_compute; reflexivity).
  assert ((ik_ratio E_short args_producttype short_query short_world).1
          = Ok short_ratio) as Hr by (vm_compute; reflexivity).
  assert (1 < short_ratio)%Q as Hlt by (vm_compute; reflexivity).
  split; [exact Hkw|]. split; [exact Hq|]. split; [exact Hr|].
  split; [exact Hlt|]. split; [reflexivity|].
  exact (C2_too_long_raises E_short args_producttype client_world short_keywords
           short_world short_query short_ratio "sentilogging"
           Hkw Hq Hr Hlt eq_refl).
Defined.

(** C2 as stated fails: the ratio is above 1.0 and the composer raises,
    but no record logged during the call contains the query string. *)
Lemma C2_counterexample :
  ik_keywords E_short args_producttype client_world = (Ok short_keywords, short_world) ∧
  (ik_query E_short args_producttype short_keywords short_world).1 = Ok short_query ∧
  (ik_ratio E_short args_producttype short_query short_world).1 = Ok short_ratio ∧
  (1 < short_ratio)%Q ∧
  ¬ query_is_logged short_query client_world run_short.2.
Proof.
  split; [vm_compute; reflexivity|]. split; [vm_compute; reflexivity|].
  split; [vm_compute; reflexivity|]. split; [vm_compute; reflexivity|].
  intros (rec & Hin & Hc).
  assert (logged_since client_world run_short.2
          = [(ERROR, "The query string is too long.")]) as Hl
    by (vm_compute; reflexivity).
  assert (contains short_query "The query string is too long." = false) as Hno
    by (vm_compute; reflexivity).
  rewrite Hl in Hin. apply list_elem_of_singleton in Hin as ->.
  cbn [snd] in Hc. rewrite Hno in Hc. discriminate Hc.
Qed.

(** ** The polygon builder *)

Lemma coords_to_polygon_Ok_inv E self lat_list lon_list crs w v w' :
  coords_to_polygon E self lat_list lon_list crs w = (Ok v, w') →
  v = VNone ∧
  ∃ lon lat geom,
    py_iter lon_list = Ok lon ∧ py_iter lat_list = Ok lat ∧
    Polygon (zip lon lat) = Ok geom ∧
    valid_crs E crs = true ∧ writable w = true ∧
    w' = with_files (<["polygon.geojson" := MkFrame [0] crs [geom]]> (files w)) w.
Proof.
  unfold coords_to_polygon. intros H.
  apply bind_Ok_inv in H as (lon & w1 & Hlon & H). apply lift_Ok_inv in Hlon as [Hlon ->].
  apply bind_Ok_inv in H as (lat & w2 & Hlat & H). apply lift_Ok_inv in Hlat as [Hlat ->].
  apply bind_Ok_inv in H as (geom & w3 & Hg & H). apply lift_Ok_inv in Hg as [Hg ->].
  apply bind_Ok_inv in H as (frame & w4 & Hf & H). apply lift_Ok_inv in Hf as [Hf ->].
  apply bind_Ok_inv in H as (r & w5 & Hw & H). apply ret_Ok_inv in H as [-> ->].
  unfold GeoDataFrame in Hf. destruct (valid_crs E crs) eqn:Hcrs; [|discriminate].
  injection Hf as <-.
  unfold to_file in Hw. destruct (writable w) eqn:Hwr; [|discriminate].
  injection Hw as <- <-. split; [done|]. by exists lon, lat, geom.
Qed.

(** C3, general part and failing input.  Whatever [coords_to_polygon]
    returns is the result of [to_file], that is None: never a region
    object.  On the square [lat_list = [0, 0, 1, 1]],
    [lon_list = [0, 1, 1, 0]] with the default CRS it returns None; the
    ring built from the input, paired as (longitude, latitude) in input
    order, is only in the file it wrote. *)
Theorem C3_returns_None E self lat_list lon_list crs w :
  (returned (coords_to_polygon E self lat_list lon_list crs w).1 = None ∨
   returned (coords_to_polygon E self lat_list lon_list crs w).1 = Some VNone) ∧
  run_square.1 = Ok VNone ∧
  files run_square.2 !! "polygon.geojson"
  = Some (MkFrame [0] default_crs [MkPolygon square_ring]).
Proof.
  split.
  - destruct (coords_to_polygon E self lat_list lon_list crs w) as [[v|e] w'] eqn:H.
    + apply coords_to_polygon_Ok_inv in H as [-> _]. by right.
    + by left.
  - split; vm_compute; reflexivity.
Qed.

Lemma zip_take_min {A B} (l : list A) (k : list B) :
  zip l k = zip (take (length l `min` length k) l) (take (length l `min` length k) k).
Proof.
  revert k. induction l as [|x l IH]; intros [|y k]; simpl; try done.
  f_equal. apply IH.
Qed.

Lemma traverse_length {A B} (f : A → result B) l r :
  traverse f l = Ok r → length r = length l.
Proof.
  revert r. induction l as [|x l IH]; intros r; simpl.
  - by intros [= <-].
  - destruct (f x) as [y|]; simpl; [|discriminate].
    destruct (traverse f l) as [ys|]; simpl; [|discriminate].
    intros [= <-]. simpl. f_equal. by apply IH.
Qed.

Lemma close_ring_length r : (length (close_ring r) ≤ S (length r))%nat.
Proof.
  destruct r as [|p r]; [simpl; lia|].
  unfold close_ring. destruct (same_point _ _); [lia|].
  rewrite length_app. simpl. lia.
Qed.

(** One or two points never make a polygon. *)
Lemma Polygon_short shell :
  (length shell = 1 ∨ length shell = 2)%nat → ∃ e, Polygon shell = Raise e.
Proof.
  intros Hlen. unfold Polygon.
  destruct (traverse point shell) as [r|e] eqn:Hr; simpl; [|eauto].
  apply traverse_length in Hr.
  destruct r as [|p r]; [simpl in Hr; lia|].
  pose proof (close_ring_length (p :: r)) as Hc.
  rewrite bool_decide_true by lia. eauto.
Qed.

(** C4 (amended).  [coords_to_polygon] checks no lengths itself.  The two
    lists are paired with [zip], so a call with lists of different
    lengths behaves exactly like the call with both lists cut to the
    shorter length; and when the shorter list has one or two points the
    call raises (the polygon constructor rejects the ring). *)
Theorem C4_pairing_decides E self lat lon crs w :
  coords_to_polygon E self (VList lat) (VList lon) crs w =
  coords_to_polygon E self
    (VList (take (length lon `min` length lat) lat))
    (VList (take (length lon `min` length lat) lon)) crs w ∧
  ((length lon `min` length lat = 1 ∨ length lon `min` length lat = 2)%nat →
   ∃ e, (coords_to_polygon E self (VList lat) (VList lon) crs w).1 = Raise e).
Proof.
  split.
  - unfold coords_to_polygon, bind, lift. simpl. by rewrite <- zip_take_min.
  - intros Hn.
    destruct (Polygon_short (zip lon lat)) as [e He].
    { by rewrite length_zip_with. }
    exists e. unfold coords_to_polygon, bind, lift. simpl. by rewrite He.
Qed.

Lemma C4_witness :
  (length [VInt 0; VInt 1; VInt 1; VInt 0] `min` length [VInt 0; VInt 0] = 2)%nat ∧
  ∃ e, (coords_to_polygon E0 (VRef 0) (VList [VInt 0; VInt 0])
          (VList [VInt 0; VInt 1; VInt 1; VInt 0]) default_crs instance_world).1
       = Raise e.
Proof.
  split; [reflexivity|].
  apply (C4_pairing_decides E0 (VRef 0) [VInt 0; VInt 0]
           [VInt 0; VInt 1; VInt 1; VInt 0] default_crs instance_world).
  right. reflexivity.
Defined.

(** C4 as stated fails: three latitudes and four longitudes differ in
    length, and the call returns without raising. *)
Lemma C4_counterexample :
  length [VInt 0; VInt 0; VInt 1] ≠ length [VInt 0; VInt 1; VInt 1; VInt 0] ∧
  square_lon = VList [VInt 0; VInt 1; VInt 1; VInt 0] ∧
  raised run_unequal.1 = None.
Proof. split; [discriminate|]. split; [reflexivity|]. vm_compute; reflexivity. Qed.

(** ** What the operations leave untouched *)

Create HintDb frame.

Ltac frame :=
  repeat match goal with
  | |- preserves _ (bind _ _) => apply preserves_bind; [apply _ | | intros ?]
  | |- preserves _ (if ?c then _ else _) => destruct c
  | |- preserves _ _ =>
      first [ solve [auto with frame]
            | apply readonly_preserves; [apply _ | solve [auto with readonly]] ]
  end.

Lemma utcnow_same_heap E : preserves (same heap) (utcnow E).
Proof. by intros w. Qed.

Lemma emit_same_heap lvl msg : preserves (same heap) (emit lvl msg).
Proof. by intros w. Qed.

Lemma to_file_same_heap frame name : preserves (same heap) (to_file frame name).
Proof. intros w. unfold to_file. by destruct (writable w). Qed.

Lemma call_query_same_heap E f kw : preserves (same heap) (call_query E f kw).
Proof. intros w. destruct f as [|[]|[]]; done. Qed.

Lemma call_log_same_heap f msg : preserves (same heap) (call_log f msg).
Proof. intros w. destruct f as [|[]|[]]; done. Qed.

#[export] Hint Resolve utcnow_same_heap emit_same_heap to_file_same_heap
  call_query_same_heap call_log_same_heap : frame.

Lemma coords_to_polygon_same_heap E self lat_list lon_list crs :
  preserves (same heap) (coords_to_polygon E self lat_list lon_list crs).
Proof. unfold coords_to_polygon. frame. Qed.

Lemma ik_keywords_same_heap E a : preserves (same heap) (ik_keywords E a).
Proof. unfold ik_keywords. frame. Qed.

#[export] Hint Resolve coords_to_polygon_same_heap ik_keywords_same_heap
  readonly_ik_query readonly_ik_ratio : frame readonly.

Lemma initial_keywords_same_heap E a : preserves (same heap) (initial_keywords E a).
Proof. unfold initial_keywords. frame. Qed.

#[export] Hint Resolve initial_keywords_same_heap : frame.

Lemma call_coords_to_polygon_same_heap E f lat_list lon_list :
  preserves (same heap) (call_coords_to_polygon E f lat_list lon_list).
Proof. destruct f as [|[]|[]]; simpl; frame. Qed.

Lemma call_initial_keywords_same_heap E f args :
  preserves (same heap) (call_initial_keywords E f args).
Proof. destruct f as [|[]|[]]; simpl; frame. Qed.

#[export] Hint Resolve call_coords_to_polygon_same_heap
  call_initial_keywords_same_heap : frame.

Lemma sp_region_same_heap E self : preserves (same heap) (sp_region E self).
Proof. unfold sp_region. frame. Qed.

Lemma sp_report_same_heap E self keywords :
  preserves (same heap) (sp_report E self keywords).
Proof. unfold sp_report. frame. Qed.

#[export] Hint Resolve sp_region_same_heap sp_report_same_heap : frame.

Lemma search_products_same_heap E self cloud_coverage data_type extra :
  preserves (same heap) (search_products E self cloud_coverage data_type extra).
Proof. unfold search_products. frame. Qed.

Lemma same_heap_kept w w' : same heap w w' → heap_kept w w'.
Proof. unfold same, heap_kept. by intros ->. Qed.

(** [api] allocates the client and assigns [logger] on that new object
    only. *)
Lemma api_tail_heap_kept E user password :
  preserves heap_kept
    (a <- alloc (Obj SentinelAPI
           (<["show_progressbars" := VBool true]>
           (<["password" := password]>
           (<["user" := user]>
           (<["logger" := VLogger "sentinelsat.SentinelAPI"]> ∅))))) ;;
     logger <- load_global E "logger" ;;
     setattr a "logger" logger ;;;
     ret (VRef a)).
Proof.
  intros w. unfold bind, alloc, load_global, heap_kept. simpl.
  destruct (globals E !! "logger") as [lg|]; simpl.
  - unfold setattr. simpl.
    rewrite list_lookup_middle by done. simpl.
    rewrite insert_app_r_alt by done. by apply prefix_app_r.
  - by apply prefix_app_r.
Qed.

Lemma api_heap_kept E self : preserves heap_kept (api E self).
Proof.
  unfold api.
  do 4 (apply preserves_bind; [apply _ | | intros ?];
        [apply readonly_preserves; [apply _ | solve [auto with readonly]] |]).
  apply api_tail_heap_kept.
Qed.

Lemma field_kept w w' a name :
  is_Some (heap w !! a) → heap_kept w w' → field w' a name = field w a name.
Proof.
  intros [o Ho] Hk. unfold field.
  by rewrite Ho, (heap_kept_lookup _ _ _ _ Hk Ho).
Qed.

(** C10.  None of [api], [coords_to_polygon], [initial_keywords],
    [search_products] assigns an attribute of an existing instance: after
    any call, with any arguments and whether it returns or raises, every
    attribute of every object that was on the heap before the call, and so
    each of the seven fields the constructor set, has the value it had. *)
Theorem C10_no_attribute_assigned E w a name :
  is_Some (heap w !! a) →
  (∀ self, field (api E self w).2 a name = field w a name) ∧
  (∀ self lat_list lon_list crs,
     field (coords_to_polygon E self lat_list lon_list crs w).2 a name
     = field w a name) ∧
  (∀ args, field (initial_keywords E args w).2 a name = field w a name) ∧
  (∀ self cloud_coverage data_type extra,
     field (search_products E self cloud_coverage data_type extra w).2 a name
     = field w a name).
Proof.
  intros Ha. repeat split; intros.
  - apply field_kept; [done|]. apply api_heap_kept.
  - apply field_kept; [done|]. apply same_heap_kept, coords_to_polygon_same_heap.
  - apply field_kept; [done|]. apply same_heap_kept, initial_keywords_same_heap.
  - apply field_kept; [done|]. apply same_heap_kept, search_products_same_heap.
Qed.

Lemma C10_witness :
  is_Some (heap instance_world !! 0%nat) ∧
  field instance_world 0 "count_days_buffer" = Some (VTimedelta ten_days) ∧
  (∀ self, field (api E0 self instance_world).2 0 "count_days_buffer"
           = field instance_world 0 "count_days_buffer") ∧
  (∀ self lat_list lon_list crs,
     field (coords_to_polygon E0 self lat_list lon_list crs instance_world).2
       0 "count_days_buffer"
     = field instance_world 0 "count_days_buffer") ∧
  (∀ args, field (initial_keywords E0 args instance_world).2 0 "count_days_buffer"
           = field instance_world 0 "count_days_buffer") ∧
  (∀ self cloud_coverage data_type extra,
     field (search_products E0 self cloud_coverage data_type extra instance_world).2
       0 "count_days_buffer"
     = field instance_world 0 "count_days_buffer").
Proof.
  assert (is_Some (heap instance_world !! 0%nat)) as Ha
    by (vm_compute; eexists; reflexivity).
  split; [exact Ha|]. split; [vm_compute; reflexivity|].
  exact (C10_no_attribute_assigned E0 instance_world 0 "count_days_buffer" Ha).
Defined.

(** ** The search *)

Lemma sp_region_returns_None E self w v w' :
  sp_region E self w = (Ok v, w') → v = VNone.
Proof.
  unfold sp_region. intros H.
  apply bind_Ok_inv in H as (fc & w1 & _ & H).
  apply bind_Ok_inv in H as (lat & w2 & _ & H).
  apply bind_Ok_inv in H as (lon & w3 & _ & H).
  destruct fc as [|[]|[]]; try discriminate.
  by apply coords_to_polygon_Ok_inv in H as [-> _].
Qed.

(** With None for [self] the composer stops at [self.count_days_buffer]. *)
Lemma initial_keywords_None_self E region sensor data_type cloud_coverage extra w :
  initial_keywords E (IkArgs VNone region sensor data_type cloud_coverage extra) w
  = (Raise (AttributeError "count_days_buffer"), with_ticks (S (ticks w)) w).
Proof. reflexivity. Qed.

Lemma call_initial_keywords_static E region cloud_coverage extra :
  call_initial_keywords E (Plain F_initial_keywords) [region; cloud_coverage; extra]
  = initial_keywords E (shifted_args region cloud_coverage extra).
Proof. reflexivity. Qed.

Lemma search_products_never_returns E self cloud_coverage data_type extra w :
  returned (search_products E self cloud_coverage data_type extra w).1 = None.
Proof.
  unfold search_products, bind.
  destruct (sp_region E self w) as [[region|e] w1] eqn:Hregion; [|done].
  apply sp_region_returns_None in Hregion as ->.
  destruct (getattr self "initial_keywords" w1) as [[fk|e] w2]; [|done].
  destruct fk as [|[]|[]]; done.
Qed.

(** C8, general part and failing input.  [search_products] never returns:
    the region it obtains is None, and the composer, called with that
    region in the place of [self], raises before any search is sent.  With
    a provider that has no matching product, on [Sentinel(ref, 10)] and on
    the same instance after [s.api = s.api()], the call
    [search_products(cloud_coverage=(0, 30))] raises AttributeError; it
    logs nothing and sends nothing.  With no module name bound from
    outside it is the NameError of [lat_list] at line 164. *)
Theorem C8_search_never_reports E self cloud_coverage data_type extra w :
  returned (search_products E self cloud_coverage data_type extra w).1 = None ∧
  api_query E0 ∅ = Ok [] ∧
  run_search_bare.1 = Raise (NameError "lat_list") ∧
  run_search.1 = Raise (AttributeError "count_days_buffer") ∧
  log run_search.2 = [] ∧ requests run_search.2 = [] ∧
  run_search_client.1 = Raise (AttributeError "count_days_buffer") ∧
  log run_search_client.2 = [] ∧ requests run_search_client.2 = [].
Proof.
  split; [apply search_products_never_returns|].
  split; [reflexivity|].
  repeat split; vm_compute; reflexivity.
Qed.



(** * Further properties of the code *)

(** ** The constructor and [api] *)

Lemma getattr_field a name w x :
  field w a name = Some x → (getattr (VRef a) name w).1 = Ok (Data x).
Proof.
  unfold field, getattr. destruct (heap w !! a) as [o|]; simpl; [|done].
  by intros ->.
Qed.

(** X1.  [Sentinel(...)] with [|days_backwards| <= 999999999] returns a
    new instance, leaves the objects already on the heap alone, and
    reading the seven attributes back gives the constructor's arguments,
    with [count_days_buffer] equal to [days_backwards] days; beyond that
    bound [timedelta] overflows, the constructor raises OverflowError and
    nothing changes. *)
Theorem X1_constructor_round_trip ref_datetime days_backwards id_execution
    dest_dir api_user api_password w :
  (Z.abs days_backwards ≤ 999999999 →
   ∃ w',
     __init__ ref_datetime days_backwards id_execution dest_dir
       api_user api_password w = (Ok (VRef (length (heap w))), w') ∧
     heap w `prefix_of` heap w' ∧
     (λ name, (getattr (VRef (length (heap w))) name w').1) <$> constructor_fields =
       [Ok (Data ref_datetime); Ok (Data (VInt days_backwards)); Ok (Data dest_dir);
        Ok (Data id_execution);
        Ok (Data (VTimedelta (days_backwards * 86400000000)));
        Ok (Data api_user); Ok (Data api_password)]) ∧
  (999999999 < Z.abs days_backwards →
   __init__ ref_datetime days_backwards id_execution dest_dir
     api_user api_password w = (Raise OverflowError, w)).
Proof.
  split; intros Hdays.
  - destruct (__init__ ref_datetime days_backwards id_execution dest_dir
                api_user api_password w) as [r w'] eqn:Hrun.
    assert (∃ v, r = Ok v) as [v ->].
    { unfold __init__, bind, lift, timedelta_days in Hrun.
      rewrite bool_decide_true in Hrun by done. simpl in Hrun.
      injection Hrun as <- _. eauto. }
    pose proof (init_fields _ _ _ _ _ _ _ _ _ Hrun) as [-> Hfields].
    exists w'. split; [done|]. split.
    + unfold __init__, bind, lift, timedelta_days in Hrun.
      rewrite bool_decide_true in Hrun by done. simpl in Hrun.
      injection Hrun as <-. simpl. by apply prefix_app_r.
    + unfold constructor_fields in *. cbn [fmap list_fmap] in *.
      injection Hfields as H1 H2 H3 H4 H5 H6 H7.
      by rewrite (getattr_field _ _ _ _ H1), (getattr_field _ _ _ _ H2),
        (getattr_field _ _ _ _ H3), (getattr_field _ _ _ _ H4),
        (getattr_field _ _ _ _ H5), (getattr_field _ _ _ _ H6),
        (getattr_field _ _ _ _ H7).
  - unfold __init__, bind, lift, timedelta_days.
    rewrite bool_decide_false by lia. done.
Qed.

Lemma X1_witness :
  (Z.abs 10 ≤ 999999999 ∧
   ∃ w',
     __init__ (VDatetime 63800000000000000) 10 VNone (VStr "/data")
       (VStr "user") (VStr "secret") fresh_world = (Ok (VRef 0), w') ∧
     heap fresh_world `prefix_of` heap w' ∧
     (λ name, (getattr (VRef 0) name w').1) <$> constructor_fields =
       [Ok (Data (VDatetime 63800000000000000)); Ok (Data (VInt 10));
        Ok (Data (VStr "/data")); Ok (Data VNone);
        Ok (Data (VTimedelta (10 * 86400000000)));
        Ok (Data (VStr "user")); Ok (Data (VStr "secret"))]) ∧
  (999999999 < Z.abs (-1000000000) ∧
   __init__ (VDatetime 63800000000000000) (-1000000000) VNone (VStr "/data")
     (VStr "user") (VStr "secret") fresh_world = (Raise OverflowError, fresh_world)).
Proof.
  assert (Z.abs 10 ≤ 999999999) as H1 by (simpl; lia).
  assert (999999999 < Z.abs (-1000000000)) as H2 by (simpl; lia).
  split.
  - split; [exact H1|].
    exact (proj1 (X1_constructor_round_trip (VDatetime 63800000000000000) 10 VNone
                    (VStr "/data") (VStr "user") (VStr "secret") fresh_world) H1).
  - split; [exact H2|].
    exact (proj2 (X1_constructor_round_trip (VDatetime 63800000000000000)
                    (-1000000000) VNone (VStr "/data") (VStr "user") (VStr "secret")
                    fresh_world) H2).
Defined.

Lemma api_run E s o user password lg w :
  heap w !! s = Some o →
  attrs o !! "user" = Some user →
  attrs o !! "password" = Some password →
  globals E !! "logger" = Some lg →
  api E (VRef s) w =
    (Ok (VRef (length (heap w))),
     with_heap (heap w ++ [client_obj lg user password]) w).
Proof.
  intros Ho Hu Hp Hlg.
  unfold api, bind, getattr. rewrite Ho, Hu. simpl. rewrite Ho, Hp. simpl.
  unfold load_global. rewrite Hlg. simpl. unfold setattr. simpl.
  rewrite list_lookup_middle by done. simpl.
  rewrite insert_app_r_alt by done. rewrite Nat.sub_diag. done.
Qed.

(** X2.  On an instance that has [user] and [password], with the module
    name [logger] bound, every call of [api] builds a new client: two
    calls return two different objects of class SentinelAPI, each carrying
    the instance's credentials and, as its [logger], the module's
    logger. *)
Theorem X2_api_builds_new_client E s o user password lg w :
  heap w !! s = Some o →
  attrs o !! "user" = Some user →
  attrs o !! "password" = Some password →
  globals E !! "logger" = Some lg →
  ∃ a1 w1 a2 w2,
    api E (VRef s) w = (Ok (VRef a1), w1) ∧
    api E (VRef s) w1 = (Ok (VRef a2), w2) ∧
    a1 ≠ a2 ∧ heap w !! a1 = None ∧ heap w1 !! a2 = None ∧
    heap w2 !! a1 = Some (client_obj lg user password) ∧
    heap w2 !! a2 = Some (client_obj lg user password) ∧
    field w2 a1 "logger" = Some lg ∧ field w2 a1 "user" = Some user ∧
    field w2 a1 "password" = Some password.
Proof.
  intros Ho Hu Hp Hlg.
  set (c := client_obj lg user password).
  set (w1 := with_heap (heap w ++ [c]) w).
  set (w2 := with_heap ((heap w ++ [c]) ++ [c]) w1).
  assert (api E (VRef s) w = (Ok (VRef (length (heap w))), w1)) as H1
    by (by apply (api_run E s o)).
  assert (heap w1 !! s = Some o) as Ho'.
  { simpl. rewrite lookup_app_l; [done|]. by eapply lookup_lt_Some. }
  assert (api E (VRef s) w1 = (Ok (VRef (S (length (heap w)))), w2)) as H2.
  { rewrite (api_run E s o user password lg w1 Ho' Hu Hp Hlg).
    simpl. rewrite length_app. simpl. by rewrite Nat.add_1_r. }
  assert (heap w2 !! length (heap w) = Some c) as Hfirst.
  { simpl. rewrite lookup_app_l by (rewrite length_app; simpl; lia).
    by apply list_lookup_middle. }
  assert (heap w2 !! S (length (heap w)) = Some c) as Hsecond.
  { simpl. apply list_lookup_middle. rewrite length_app. simpl. lia. }
  exists (length (heap w)), w1, (S (length (heap w))), w2.
  split; [exact H1|]. split; [exact H2|]. split; [lia|].
  split; [by apply lookup_ge_None_2|].
  split; [simpl; apply lookup_ge_None_2; rewrite length_app; simpl; lia|].
  split; [exact Hfirst|]. split; [exact Hsecond|].
  unfold field. rewrite Hfirst. simpl.
  repeat split; by simplify_map_eq.
Qed.

Lemma X2_witness :
  heap instance_world !! 0%nat = Some sample_instance ∧
  attrs sample_instance !! "user" = Some (VStr "user") ∧
  attrs sample_instance !! "password" = Some (VStr "secret") ∧
  globals E0 !! "logger" = Some (VLogger "sentilogging") ∧
  ∃ a1 w1 a2 w2,
    api E0 (VRef 0) instance_world = (Ok (VRef a1), w1) ∧
    api E0 (VRef 0) w1 = (Ok (VRef a2), w2) ∧
    a1 ≠ a2 ∧ heap instance_world !! a1 = None ∧ heap w1 !! a2 = None ∧
    heap w2 !! a1
    = Some (client_obj (VLogger "sentilogging") (VStr "user") (VStr "secret")) ∧
    heap w2 !! a2
    = Some (client_obj (VLogger "sentilogging") (VStr "user") (VStr "secret")) ∧
    field w2 a1 "logger" = Some (VLogger "sentilogging") ∧
    field w2 a1 "user" = Some (VStr "user") ∧
    field w2 a1 "password" = Some (VStr "secret").
Proof.
  assert (heap instance_world !! 0%nat = Some sample_instance) as Ho
    by (vm_compute; reflexivity).
  assert (attrs sample_instance !! "user" = Some (VStr "user")) as Hu
    by (vm_compute; reflexivity).
  assert (attrs sample_instance !! "password" = Some (VStr "secret")) as Hp
    by (vm_compute; reflexivity).
  assert (globals E0 !! "logger" = Some (VLogger "sentilogging")) as Hlg
    by (vm_compute; reflexivity).
  split; [exact Ho|]. split; [exact Hu|]. split; [exact Hp|]. split; [exact Hlg|].
  exact (X2_api_builds_new_client E0 0%nat sample_instance (VStr "user")
           (VStr "secret") (VLogger "sentilogging") instance_world Ho Hu Hp Hlg).
Defined.

(** X3.  While the module name [logger] is unbound, as the module leaves
    it, [api] never returns a client: whatever the receiver, the call
    ends in an exception. *)
Theorem X3_api_needs_logger E self w :
  globals E !! "logger" = None →
  returned (api E self w).1 = None.
Proof.
  intros Hlg. unfold api, bind.
  destruct (getattr self "user" w) as [[su|?] w1]; [|done].
  destruct (slot_value su w1) as [[user|?] w2]; [|done].
  destruct (getattr self "password" w2) as [[sp|?] w3]; [|done].
  destruct (slot_value sp w3) as [[password|?] w4]; [|done].
  unfold alloc, load_global. rewrite Hlg. done.
Qed.

Lemma X3_witness :
  globals E_bare !! "logger" = None ∧
  returned (api E_bare (VRef 0) instance_world).1 = None.
Proof.
  split; [reflexivity|].
  exact (X3_api_needs_logger E_bare (VRef 0) instance_world eq_refl).
Defined.

(** ** The polygon file *)

Lemma traverse_point_ints lon lat :
  traverse point (zip (VInt <$> lon) (VInt <$> lat)) = Ok (pairs lon lat).
Proof.
  unfold pairs. revert lat. induction lon as [|x lon IH]; intros [|y lat]; try done.
  cbn [fmap list_fmap zip zip_with traverse]. unfold point at 1. simpl.
  by rewrite IH.
Qed.

Lemma close_ring_prefix r : r `prefix_of` close_ring r.
Proof.
  destruct r as [|p r]; [done|]. unfold close_ring.
  destruct (same_point _ _); [done|]. by apply prefix_app_r.
Qed.



Lemma coords_to_polygon_Raise_inv E self lat_list lon_list crs w e w' :
  coords_to_polygon E self lat_list lon_list crs w = (Raise e, w') → w' = w.
Proof.
  unfold coords_to_polygon, bind, lift, GeoDataFrame, to_file, ret.
  destruct (py_iter lon_list); [|by intros [= _ <-]].
  destruct (py_iter lat_list); [|by intros [= _ <-]].
  destruct (Polygon _); [|by intros [= _ <-]].
  destruct (valid_crs E crs); [|by intros [= _ <-]].
  destruct (writable w); [discriminate | by intros [= _ <-]].
Qed.

(** X5.  A call of [coords_to_polygon] that raises leaves the world as it
    was: no file is written or changed.  In a working directory that
    cannot be written the call always raises. *)
Theorem X5_failed_polygon_writes_nothing E self lat_list lon_list crs w :
  (∀ e w', coords_to_polygon E self lat_list lon_list crs w = (Raise e, w') → w' = w) ∧
  (writable w = false →
   ∃ e, coords_to_polygon E self lat_list lon_list crs w = (Raise e, w)).
Proof.
  split; [intros e w'; apply coords_to_polygon_Raise_inv|].
  intros Hw.
  destruct (coords_to_polygon E self lat_list lon_list crs w) as [[v|e] w'] eqn:H.
  - apply coords_to_polygon_Ok_inv in H as (_ & ? & ? & ? & _ & _ & _ & _ & Hw' & _).
    congruence.
  - apply coords_to_polygon_Raise_inv in H as ->. eauto.
Qed.

Lemma X5_witness :
  (coords_to_polygon E0 (VRef 0) square_lat square_lon default_crs readonly_dir_world
   = (Raise OSError, readonly_dir_world) ∧
   readonly_dir_world = readonly_dir_world) ∧
  (writable readonly_dir_world = false ∧
   ∃ e, coords_to_polygon E0 (VRef 0) square_lat square_lon default_crs
          readonly_dir_world = (Raise e, readonly_dir_world)).
Proof.
  assert (coords_to_polygon E0 (VRef 0) square_lat square_lon default_crs
            readonly_dir_world = (Raise OSError, readonly_dir_world)) as Hrun
    by (vm_compute; reflexivity).
  destruct (X5_failed_polygon_writes_nothing E0 (VRef 0) square_lat square_lon
              default_crs readonly_dir_world) as [Hsame Hraise].
  split.
  - split; [exact Hrun|]. exact (Hsame OSError readonly_dir_world Hrun).
  - split; [reflexivity|]. exact (Hraise eq_refl).
Defined.

(** X6.  Writing the polygon is idempotent: a second call of
    [coords_to_polygon] with the same arguments, made in the world the
    first one left, has the same outcome and leaves that same world (the
    file is overwritten with the same content). *)
Theorem X6_polygon_idempotent E self lat_list lon_list crs w :
  coords_to_polygon E self lat_list lon_list crs
    (coords_to_polygon E self lat_list lon_list crs w).2
  = coords_to_polygon E self lat_list lon_list crs w.
Proof.
  destruct (coords_to_polygon E self lat_list lon_list crs w) as [[v|e] w'] eqn:H.
  - apply coords_to_polygon_Ok_inv in H
      as (-> & lo & la & geom & Hlo & Hla & Hgeom & Hcrs & Hw & ->).
    unfold coords_to_polygon, bind, lift, GeoDataFrame, to_file, ret. simpl.
    rewrite Hlo, Hla, Hgeom, Hcrs, Hw. unfold with_files. simpl.
    by rewrite insert_insert_eq.
  - pose proof (coords_to_polygon_Raise_inv _ _ _ _ _ _ _ _ H) as ->. exact H.
Qed.

(** ** The composer *)

Lemma ik_keywords_world E a w :
  (ik_keywords E a w).2 = with_ticks (S (ticks w)) w ∨
  (ik_keywords E a w).2 = with_ticks (S (S (ticks w))) w.
Proof.
  unfold ik_keywords, bind, utcnow.
  rewrite (readonly_run _ _ (readonly_getattr (p_self a) "count_days_buffer")).
  destruct ((getattr _ _ _).1) as [sb|]; simpl; [|by left].
  destruct sb as [buffer| |]; simpl; try by left.
  unfold lift. destruct (datetime_sub _ _); simpl; [|by left].
  destruct (as_mapping _); simpl; [|by right].
  destruct (py_eq_str _ _); simpl; [|by right].
  unfold load_global. destruct (globals E !! _); by right.
Qed.

Lemma initial_keywords_world E a w :
  (initial_keywords E a w).2 = (ik_keywords E a w).2 ∨
  (returned (initial_keywords E a w).1 = None ∧
   (initial_keywords E a w).2 =
     with_log (log w ++ [(ERROR, too_long)]) (ik_keywords E a w).2).
Proof.
  unfold initial_keywords, bind.
  destruct (ik_keywords E a w) as [[kw|e] w1] eqn:Hkw; [|by left].
  apply ik_keywords_quiet in Hkw as (Hlog & _ & _).
  rewrite (readonly_run _ w1 (readonly_ik_query E a kw)).
  destruct ((ik_query E a kw w1).1) as [q|]; simpl; [|by left].
  rewrite (readonly_run _ w1 (readonly_ik_ratio E a q)).
  destruct ((ik_ratio E a q w1).1) as [r|]; simpl; [|by left].
  destruct (Qlt_le_dec 1 r); [|by left].
  unfold load_global. destruct (globals E !! "logger") as [lg|]; simpl; [|by left].
  rewrite (readonly_run _ w1 (readonly_getattr lg "error")).
  destruct ((getattr lg "error" w1).1) as [f|] eqn:Hf; simpl; [|by left].
  destruct (getattr_resolves_calls lg w1 f) as (_ & _ & _ & _ & _ & Herror & _).
  destruct (Herror Hf) as [[x ->] | ->]; simpl; [by left|].
  right. by rewrite Hlog.
Qed.

(** X7.  Whatever its arguments and however it ends, [initial_keywords]
    writes no file, sends no search and changes no object; it reads the
    clock once or twice; and it logs nothing, except for the one error
    line 'The query string is too long.' in a run that raises. *)
Theorem X7_composer_effects E a w :
  files (initial_keywords E a w).2 = files w ∧
  requests (initial_keywords E a w).2 = requests w ∧
  heap (initial_keywords E a w).2 = heap w ∧
  (ticks (initial_keywords E a w).2 = S (ticks w) ∨
   ticks (initial_keywords E a w).2 = S (S (ticks w))) ∧
  (log (initial_keywords E a w).2 = log w ∨
   (returned (initial_keywords E a w).1 = None ∧
    log (initial_keywords E a w).2
    = log w ++ [(ERROR, "The query string is too long.")])).
Proof.
  destruct (initial_keywords_world E a w) as [Hw | [Hret Hw]];
    destruct (ik_keywords_world E a w) as [Hk | Hk];
    rewrite Hw, Hk; simpl; repeat split; auto.
Qed.

Lemma base_keywords_dom a date :
  dom (base_keywords a date) = list_to_set base_keys.
Proof.
  unfold base_keywords, base_keys. rewrite !dom_insert_L, dom_empty_L.
  simpl. set_solver.
Qed.

(** X8.  In the mapping [initial_keywords] returns, every entry of
    [extra] other than 'cloudcoverpercentage' appears unchanged, whatever
    its key (no key is checked or dropped); the keys are exactly those of
    [extra], the five base keys and, for sensor 'Sentinel-2',
    'cloudcoverpercentage'; and a base entry that [extra] does not supply
    keeps its base value: 'area' the region, 'producttype' the data type,
    'tileid' None. *)
Theorem X8_extra_passes_through E a w d w' extra :
  initial_keywords E a w = (Ok (VDict d), w') →
  as_mapping (p_extra a) = Ok extra →
  (∀ k, k ≠ "cloudcoverpercentage" → is_Some (extra !! k) → d !! k = extra !! k) ∧
  dom d = dom extra ∪ list_to_set base_keys ∪
          (if py_eq_str (p_sensor a) "Sentinel-2"
           then {["cloudcoverpercentage"]} else ∅) ∧
  (extra !! "area" = None → d !! "area" = Some (p_region a)) ∧
  (extra !! "producttype" = None → d !! "producttype" = Some (p_data_type a)) ∧
  (extra !! "tileid" = None → d !! "tileid" = Some VNone).
Proof.
  intros H Hextra.
  apply initial_keywords_Ok_inv in H as (kw & q & r & Hkw & _ & _ & _ & [= <-]).
  apply ik_keywords_Ok_inv in Hkw
    as (buffer & start & extra' & _ & _ & Hex & _ & Hshape).
  rewrite Hextra in Hex. injection Hex as <-.
  set (date := VTuple [start; VDatetime (utc_clock E (S (ticks w)))]) in *.
  assert (∀ k, k ≠ "cloudcoverpercentage" →
            d !! k = (extra ∪ base_keywords a date) !! k) as Hd.
  { intros k Hk. destruct Hshape as [(_ & v & _ & ->) | (_ & ->)]; [|done].
    by rewrite lookup_insert_ne. }
  pose proof (base_keywords_dom a date) as Hbase.
  split; [|split; [|repeat split]].
  - intros k Hk Hsome. rewrite Hd by done. by apply lookup_union_l'.
  - destruct Hshape as [(Hs & v & _ & ->) | (Hs & ->)].
    + apply py_eq_str_true in Hs. rewrite Hs.
      rewrite dom_insert_L, dom_union_L, Hbase. apply (comm_L (∪)).
    + apply py_eq_str_false in Hs. rewrite Hs.
      rewrite dom_union_L, Hbase. by rewrite (right_id_L ∅ (∪)).
  - intros Hnone. rewrite Hd by done. rewrite lookup_union_r by done.
    unfold base_keywords. rewrite !lookup_insert_ne by done.
    by rewrite lookup_insert_eq.
  - intros Hnone. rewrite Hd by done. rewrite lookup_union_r by done.
    unfold base_keywords. rewrite lookup_insert_ne by done.
    by rewrite lookup_insert_eq.
  - intros Hnone. rewrite Hd by done. rewrite lookup_union_r by done.
    unfold base_keywords. by rewrite lookup_insert_eq.
Qed.

Lemma X8_witness :
  run_orbit = (Ok (VDict (mapping_of run_orbit)), run_orbit.2) ∧
  as_mapping (p_extra args_orbit) = Ok (<["orbitdirection" := VStr "DESCENDING"]> ∅) ∧
  mapping_of run_orbit !! "orbitdirection" = Some (VStr "DESCENDING") ∧
  dom (mapping_of run_orbit) =
    dom (<["orbitdirection" := VStr "DESCENDING"]> ∅ : gmap string value)
    ∪ list_to_set base_keys ∪ ∅ ∧
  mapping_of run_orbit !! "area" = Some (p_region args_orbit) ∧
  mapping_of run_orbit !! "producttype" = Some VNone ∧
  mapping_of run_orbit !! "tileid" = Some VNone.
Proof.
  assert (run_orbit = (Ok (VDict (mapping_of run_orbit)), run_orbit.2)) as Hrun
    by (vm_compute; reflexivity).
  destruct (X8_extra_passes_through E0 args_orbit client_world
              (mapping_of run_orbit) run_orbit.2
              (<["orbitdirection" := VStr "DESCENDING"]> ∅) Hrun eq_refl)
    as (Hpass & Hdom & Harea & Hproduct & Htile).
  split; [exact Hrun|]. split; [reflexivity|].
  split.
  { rewrite (Hpass "orbitdirection"); [reflexivity | discriminate |].
    eexists; reflexivity. }
  split; [exact Hdom|].
  split; [exact (Harea eq_refl)|].
  split; [exact (Hproduct eq_refl) | exact (Htile eq_refl)].
Defined.

(** X9.  With sensor 'Sentinel-2' the 'cloudcoverpercentage' entry of the
    returned mapping is the value of the module name
    [cloud_percent_accept], whatever the [cloud_coverage] argument is and
    whatever [extra] holds under that key: line 130 writes it after the
    merge. *)
Theorem X9_cloud_cover_from_module_name E a w d w' :
  initial_keywords E a w = (Ok (VDict d), w') →
  p_sensor a = VStr "Sentinel-2" →
  is_Some (globals E !! "cloud_percent_accept") ∧
  d !! "cloudcoverpercentage" = globals E !! "cloud_percent_accept".
Proof.
  intros H Hs.
  apply initial_keywords_Ok_inv in H as (kw & q & r & Hkw & _ & _ & _ & [= <-]).
  apply ik_keywords_Ok_inv in Hkw
    as (buffer & start & extra & _ & _ & _ & _ & Hshape).
  destruct Hshape as [(_ & v & Hv & ->) | (Hne & _)]; [|done].
  rewrite Hv, lookup_insert_eq. eauto.
Qed.

Lemma X9_witness :
  run_s2_extra_cloud
  = (Ok (VDict (mapping_of run_s2_extra_cloud)), run_s2_extra_cloud.2) ∧
  p_sensor args_s2_extra_cloud = VStr "Sentinel-2" ∧
  p_cloud_coverage args_s2_extra_cloud = VTuple [VInt 0; VInt 30] ∧
  p_extra args_s2_extra_cloud
  = VDict (<["cloudcoverpercentage" := VTuple [VInt 0; VInt 10]]> ∅) ∧
  globals E_cloud !! "cloud_percent_accept" = Some (VTuple [VInt 0; VInt 75]) ∧
  mapping_of run_s2_extra_cloud !! "cloudcoverpercentage"
  = Some (VTuple [VInt 0; VInt 75]).
Proof.
  assert (run_s2_extra_cloud
          = (Ok (VDict (mapping_of run_s2_extra_cloud)), run_s2_extra_cloud.2)) as Hrun
    by (vm_compute; reflexivity).
  assert (globals E_cloud !! "cloud_percent_accept" = Some (VTuple [VInt 0; VInt 75]))
    as Hg by (vm_compute; reflexivity).
  split; [exact Hrun|]. split; [reflexivity|]. split; [reflexivity|].
  split; [reflexivity|]. split; [exact Hg|].
  rewrite <- Hg.
  exact (proj2 (X9_cloud_cover_from_module_name E_cloud args_s2_extra_cloud
                  client_world (mapping_of run_s2_extra_cloud) run_s2_extra_cloud.2
                  Hrun eq_refl)).
Defined.

(** X10.  With sensor 'Sentinel-2', the default, and the module name
    [cloud_percent_accept] unbound, as the module leaves it,
    [initial_keywords] never returns a mapping. *)
Theorem X10_default_sensor_needs_module_name E a w :
  p_sensor a = VStr "Sentinel-2" →
  globals E !! "cloud_percent_accept" = None →
  returned (initial_keywords E a w).1 = None.
Proof.
  intros Hs Hg.
  destruct (initial_keywords E a w) as [[v|e] w'] eqn:H; [|done].
  apply initial_keywords_Ok_inv in H as (kw & q & r & Hkw & _).
  apply ik_keywords_Ok_inv in Hkw
    as (buffer & start & extra & _ & _ & _ & _ & Hshape).
  destruct Hshape as [(_ & v' & Hv & _) | (Hne & _)]; congruence.
Qed.

Lemma X10_witness :
  p_sensor args_example = VStr "Sentinel-2" ∧
  globals E0 !! "cloud_percent_accept" = None ∧
  returned (initial_keywords E0 args_example client_world).1 = None.
Proof.
  assert (globals E0 !! "cloud_percent_accept" = None) as Hg
    by (vm_compute; reflexivity).
  split; [reflexivity|]. split; [exact Hg|].
  exact (X10_default_sensor_needs_module_name E0 args_example client_world
           eq_refl Hg).
Defined.

(** X11.  On a [Sentinel] instance whose instance dictionary has no
    [api] entry, [self.api] is the bound method and has no
    [format_query]: [initial_keywords] never returns a mapping, and once
    the mapping is built the call ends in AttributeError. *)
Theorem X11_composer_needs_client_attribute E a s o w :
  p_self a = VRef s →
  heap w !! s = Some o →
  cls o = Sentinel →
  attrs o !! "api" = None →
  returned (initial_keywords E a w).1 = None ∧
  (∀ kw w1, ik_keywords E a w = (Ok kw, w1) →
            initial_keywords E a w = (Raise (AttributeError "format_query"), w1)).
Proof.
  intros Hself Ho Hcls Hattr.
  assert (∀ kw w1, ik_keywords E a w = (Ok kw, w1) →
            ik_query E a kw w1 = (Raise (AttributeError "format_query"), w1)) as Hq.
  { intros kw w1 Hkw. apply ik_keywords_quiet in Hkw as (_ & _ & Hheap).
    unfold ik_query, bind, getattr. rewrite Hself, Hheap, Ho, Hattr, Hcls. done. }
  split.
  - destruct (initial_keywords E a w) as [[v|e] w'] eqn:H; [|done].
    apply initial_keywords_Ok_inv in H as (kw & q & r & Hkw & Hquery & _).
    rewrite (Hq _ _ Hkw) in Hquery. discriminate.
  - intros kw w1 Hkw. unfold initial_keywords.
    rewrite (bind_Ok _ _ _ _ _ Hkw). by rewrite (bind_Raise _ _ _ _ _ (Hq _ _ Hkw)).
Qed.

Lemma X11_witness :
  p_self args_producttype = VRef 0 ∧
  heap instance_world !! 0%nat = Some sample_instance ∧
  cls sample_instance = Sentinel ∧
  attrs sample_instance !! "api" = None ∧
  returned (initial_keywords E0 args_producttype instance_world).1 = None ∧
  ik_keywords E0 args_producttype instance_world
  = (Ok short_keywords, (ik_keywords E0 args_producttype instance_world).2) ∧
  initial_keywords E0 args_producttype instance_world
  = (Raise (AttributeError "format_query"),
     (ik_keywords E0 args_producttype instance_world).2).
Proof.
  assert (heap instance_world !! 0%nat = Some sample_instance) as Ho
    by (vm_compute; reflexivity).
  assert (cls sample_instance = Sentinel) as Hcls by (vm_compute; reflexivity).
  assert (attrs sample_instance !! "api" = None) as Hattr by (vm_compute; reflexivity).
  assert (ik_keywords E0 args_producttype instance_world
          = (Ok short_keywords, (ik_keywords E0 args_producttype instance_world).2))
    as Hkw by (vm_compute; reflexivity).
  destruct (X11_composer_needs_client_attribute E0 args_producttype 0%nat
              sample_instance instance_world eq_refl Ho Hcls Hattr) as [Hnever Herr].
  split; [reflexivity|]. split; [exact Ho|]. split; [exact Hcls|].
  split; [exact Hattr|]. split; [exact Hnever|]. split; [exact Hkw|].
  exact (Herr _ _ Hkw).
Defined.

Lemma ik_query_Ok_inv E a kw w q w' :
  ik_query E a kw w = (Ok q, w') → api_format_query E kw = Ok q.
Proof.
  unfold ik_query. intros H.
  apply bind_Ok_inv in H as (sa & w1 & _ & H).
  apply bind_Ok_inv in H as (f & w2 & _ & H).
  destruct f as [|[]|[]]; try discriminate.
  by apply lift_Ok_inv in H as [-> _].
Qed.

Lemma ik_ratio_Ok_inv E a q w r w' :
  ik_ratio E a q w = (Ok r, w') → r = api_check_query_length E q.
Proof.
  unfold ik_ratio. intros H.
  apply bind_Ok_inv in H as (sa & w1 & _ & H).
  apply bind_Ok_inv in H as (f & w2 & _ & H).
  destruct f as [|[]|[]]; try discriminate.
  by apply ret_Ok_inv in H as [-> _].
Qed.

(** X12.  Whatever [initial_keywords] returns is a dict that the provider
    has formatted without error and whose formatted query has a length
    ratio of at most 1.0; a call that returns has logged nothing. *)
Theorem X12_returned_mapping_was_checked E a w v w' :
  initial_keywords E a w = (Ok v, w') →
  ∃ d query,
    v = VDict d ∧
    api_format_query E d = Ok query ∧
    (api_check_query_length E query <= 1)%Q ∧
    log w' = log w.
Proof.
  intros H.
  apply initial_keywords_Ok_inv in H as (kw & q & r & Hkw & Hq & Hr & Hle & ->).
  apply ik_query_Ok_inv in Hq. apply ik_ratio_Ok_inv in Hr as ->.
  apply ik_keywords_quiet in Hkw as (Hlog & _).
  by exists kw, q.
Qed.

Lemma X12_witness :
  run_producttype = (Ok (VDict (mapping_of run_producttype)), run_producttype.2) ∧
  ∃ d query,
    VDict (mapping_of run_producttype) = VDict d ∧
    api_format_query E0 d = Ok query ∧
    (api_check_query_length E0 query <= 1)%Q ∧
    log run_producttype.2 = log client_world.
Proof.
  assert (run_producttype
          = (Ok (VDict (mapping_of run_producttype)), run_producttype.2)) as Hrun
    by (vm_compute; reflexivity).
  split; [exact Hrun|].
  exact (X12_returned_mapping_was_checked E0 args_producttype client_world
           (VDict (mapping_of run_producttype)) run_producttype.2 Hrun).
Defined.

(** X13.  The length test is strict: when the composer has built its
    mapping and the provider reports a ratio of at most 1.0 for the
    formatted query, exactly 1.0 included, [initial_keywords] returns that
    mapping and logs nothing. *)
Theorem X13_ratio_at_most_one_returns E a w kw w1 query ratio :
  ik_keywords E a w = (Ok kw, w1) →
  (ik_query E a kw w1).1 = Ok query →
  (ik_ratio E a query w1).1 = Ok ratio →
  (ratio <= 1)%Q →
  initial_keywords E a w = (Ok (VDict kw), w1) ∧ log w1 = log w.
Proof.
  intros Hkw Hq Hr Hle.
  assert (ik_query E a kw w1 = (Ok query, w1)) as Hq'
    by (rewrite (readonly_run _ w1 (readonly_ik_query E a kw)); by rewrite Hq).
  assert (ik_ratio E a query w1 = (Ok ratio, w1)) as Hr'
    by (rewrite (readonly_run _ w1 (readonly_ik_ratio E a query)); by rewrite Hr).
  split; [|by apply ik_keywords_quiet in Hkw as (? & _)].
  unfold initial_keywords.
  rewrite (bind_Ok _ _ _ _ _ Hkw), (bind_Ok _ _ _ _ _ Hq'), (bind_Ok _ _ _ _ _ Hr').
  destruct (Qlt_le_dec 1 ratio) as [Hlt|_]; [|done].
  by apply Qlt_not_le in Hlt.
Qed.

(** The sample query has 57 characters; the limit is 57. *)
Lemma X13_witness :
  ik_keywords E_exact args_producttype client_world = (Ok short_keywords, short_world) ∧
  (ik_query E_exact args_producttype short_keywords short_world).1 = Ok short_query ∧
  (ik_ratio E_exact args_producttype short_query short_world).1 = Ok (57 # 57) ∧
  (57 # 57 == 1)%Q ∧ (57 # 57 <= 1)%Q ∧
  initial_keywords E_exact args_producttype client_world
  = (Ok (VDict short_keywords), short_world) ∧
  log short_world = log client_world.
Proof.
  assert (ik_keywords E_exact args_producttype client_world
          = (Ok short_keywords, short_world)) as Hkw by (vm_compute; reflexivity).
  assert ((ik_query E_exact args_producttype short_keywords short_world).1
          = Ok short_query) as Hq by (vm_compute; reflexivity).
  assert ((ik_ratio E_exact args_producttype short_query short_world).1
          = Ok (57 # 57)) as Hr by (vm_compute; reflexivity).
  assert (57 # 57 <= 1)%Q as Hle by (vm_compute; discriminate).
  split; [exact Hkw|]. split; [exact Hq|]. split; [exact Hr|].
  split; [reflexivity|]. split; [exact Hle|].
  exact (X13_ratio_at_most_one_returns E_exact args_producttype client_world
           short_keywords short_world short_query (57 # 57) Hkw Hq Hr Hle).
Defined.

(** X14.  When [self.count_days_buffer] is a timedelta that takes the
    first clock reading outside the range of datetime (before year 1 or
    past year 9999), the subtraction of line 122 overflows:
    [initial_keywords] raises OverflowError after that single clock
    reading.  The constructor accepts such a lookback. *)
Theorem X14_lookback_overflow E a w lookback :
  (getattr (p_self a) "count_days_buffer" w).1 = Ok (Data (VTimedelta lookback)) →
  ¬ (0 ≤ utc_clock E (ticks w) - lookback < datetime_end) →
  initial_keywords E a w = (Raise OverflowError, with_ticks (S (ticks w)) w).
Proof.
  intros Hlook Hrange.
  unfold initial_keywords, ik_keywords, bind, utcnow.
  rewrite (readonly_run _ _ (readonly_getattr (p_self a) "count_days_buffer")).
  rewrite (getattr_heap _ _ _ w) by done. rewrite Hlook. simpl.
  unfold lift, datetime_sub. by rewrite bool_decide_false.
Qed.

Lemma X14_witness :
  __init__ (VDatetime 63800000000000000) 999999999 VNone (VStr "/data")
    (VStr "user") (VStr "secret") fresh_world = (Ok (VRef 0), far_world) ∧
  (getattr (p_self args_far) "count_days_buffer" far_world).1
  = Ok (Data (VTimedelta (999999999 * 86400000000))) ∧
  ¬ (0 ≤ utc_clock E0 (ticks far_world) - 999999999 * 86400000000 < datetime_end) ∧
  initial_keywords E0 args_far far_world
  = (Raise OverflowError, with_ticks (S (ticks far_world)) far_world).
Proof.
  assert ((getattr (p_self args_far) "count_days_buffer" far_world).1
          = Ok (Data (VTimedelta (999999999 * 86400000000)))) as Hlook
    by (vm_compute; reflexivity).
  assert (¬ (0 ≤ utc_clock E0 (ticks far_world) - 999999999 * 86400000000
             < datetime_end)) as Hrange.
  { assert (utc_clock E0 (ticks far_world) = 63800000000000000) as ->
      by (vm_compute; reflexivity).
    unfold datetime_end. lia. }
  split; [vm_compute; reflexivity|]. split; [exact Hlook|]. split; [exact Hrange|].
  exact (X14_lookback_overflow E0 args_far far_world (999999999 * 86400000000)
           Hlook Hrange).
Defined.

(** X15.  [initial_keywords] is static, so a call through an instance,
    [s.initial_keywords( *args)], passes no receiver: with fewer than two
    or more than six arguments it raises TypeError and touches nothing;
    with two to six it runs the composer with [self] bound to the first
    argument and [region] to the second. *)
Theorem X15_static_call_arity E s o args w :
  heap w !! s = Some o →
  cls o = Sentinel →
  attrs o !! "initial_keywords" = None →
  ((length args < 2 ∨ 6 < length args)%nat →
   ∃ msg, invoke_initial_keywords E (VRef s) args w = (Raise (TypeError msg), w)) ∧
  ((2 ≤ length args ≤ 6)%nat →
   ∃ a, bind_initial_keywords args = Ok a ∧
        args !! 0%nat = Some (p_self a) ∧ args !! 1%nat = Some (p_region a) ∧
        invoke_initial_keywords E (VRef s) args w = initial_keywords E a w).
Proof.
  intros Ho Hcls Hattr.
  assert (getattr (VRef s) "initial_keywords" w = (Ok (Plain F_initial_keywords), w))
    as Hfk.
  { unfold getattr. rewrite Ho, Hattr, Hcls. reflexivity. }
  unfold invoke_initial_keywords. rewrite (bind_Ok _ _ _ _ _ Hfk).
  split; intros Hlen.
  - destruct args as [|x1 [|x2 [|x3 [|x4 [|x5 [|x6 [|x7 args]]]]]]];
      simpl in Hlen; try lia; eexists; reflexivity.
  - destruct args as [|x1 [|x2 [|x3 [|x4 [|x5 [|x6 [|x7 args]]]]]]];
      simpl in Hlen; try lia; eexists; (split; [reflexivity|]);
      split; try done.
Qed.

Lemma X15_witness :
  heap instance_world !! 0%nat = Some sample_instance ∧
  cls sample_instance = Sentinel ∧
  attrs sample_instance !! "initial_keywords" = None ∧
  ((length [VStr "region"] < 2)%nat ∧
   ∃ msg, invoke_initial_keywords E0 (VRef 0) [VStr "region"] instance_world
          = (Raise (TypeError msg), instance_world)) ∧
  ((2 ≤ length [VRef 0; VStr "region"] ≤ 6)%nat ∧
   ∃ a, bind_initial_keywords [VRef 0; VStr "region"] = Ok a ∧
        [VRef 0; VStr "region"] !! 0%nat = Some (p_self a) ∧
        [VRef 0; VStr "region"] !! 1%nat = Some (p_region a) ∧
        invoke_initial_keywords E0 (VRef 0) [VRef 0; VStr "region"] instance_world
        = initial_keywords E0 a instance_world).
Proof.
  assert (heap instance_world !! 0%nat = Some sample_instance) as Ho
    by (vm_compute; reflexivity).
  assert (cls sample_instance = Sentinel) as Hcls by (vm_compute; reflexivity).
  assert (attrs sample_instance !! "initial_keywords" = None) as Hattr
    by (vm_compute; reflexivity).
  split; [exact Ho|]. split; [exact Hcls|]. split; [exact Hattr|].
  split.
  - assert (length [VStr "region"] < 2)%nat as Hlen by (simpl; lia).
    split; [exact Hlen|].
    exact (proj1 (X15_static_call_arity E0 0%nat sample_instance [VStr "region"]
                    instance_world Ho Hcls Hattr) (or_introl Hlen)).
  - assert (2 ≤ length [VRef 0; VStr "region"] ≤ 6)%nat as Hlen by (simpl; lia).
    split; [exact Hlen|].
    exact (proj2 (X15_static_call_arity E0 0%nat sample_instance
                    [VRef 0; VStr "region"] instance_world Ho Hcls Hattr) Hlen).
Defined.

(** ** The search *)

Lemma coords_to_polygon_world E self lat_list lon_list crs w :
  log (coords_to_polygon E self lat_list lon_list crs w).2 = log w ∧
  requests (coords_to_polygon E self lat_list lon_list crs w).2 = requests w ∧
  heap (coords_to_polygon E self lat_list lon_list crs w).2 = heap w ∧
  ticks (coords_to_polygon E self lat_list lon_list crs w).2 = ticks w.
Proof.
  destruct (coords_to_polygon E self lat_list lon_list crs w) as [[v|e] w'] eqn:H.
  - by apply coords_to_polygon_Ok_inv in H as (_ & ? & ? & ? & _ & _ & _ & _ & _ & ->).
  - by apply coords_to_polygon_Raise_inv in H as ->.
Qed.

Lemma sp_region_world E self w :
  log (sp_region E self w).2 = log w ∧
  requests (sp_region E self w).2 = requests w ∧
  heap (sp_region E self w).2 = heap w ∧
  ticks (sp_region E self w).2 = ticks w.
Proof.
  unfold sp_region, bind.
  rewrite (readonly_run _ _ (readonly_getattr self "coords_to_polygon")).
  destruct ((getattr _ _ _).1) as [fc|]; simpl; [|done].
  unfold load_global.
  destruct (globals E !! "lat_list") as [lat|]; simpl; [|done].
  destruct (globals E !! "lon_list") as [lon|]; simpl; [|done].
  destruct fc as [|[]|[]]; simpl; try done.
  apply coords_to_polygon_world.
Qed.

Lemma sp_region_Ok_inv E self w region w1 :
  sp_region E self w = (Ok region, w1) →
  region = VNone ∧
  ∃ frame, w1 = with_files (<["polygon.geojson" := frame]> (files w)) w.
Proof.
  unfold sp_region. intros H.
  apply bind_Ok_inv in H as (fc & w2 & Hfc & H).
  apply getattr_Ok_inv in Hfc as [_ ->].
  apply bind_Ok_inv in H as (lat & w3 & Hlat & H).
  pose proof (readonly_load_global E "lat_list" w) as Hro.
  rewrite Hlat in Hro. simpl in Hro. subst w3.
  apply bind_Ok_inv in H as (lon & w4 & Hlon & H).
  pose proof (readonly_load_global E "lon_list" w) as Hro.
  rewrite Hlon in Hro. simpl in Hro. subst w4.
  destruct fc as [|[]|[]]; try discriminate.
  apply (coords_to_polygon_Ok_inv E recv lat lon default_crs) in H
    as (-> & ? & ? & geom & _ & _ & _ & _ & _ & ->).
  split; [done|]. by eexists.
Qed.

(** What [search_products] does once the region is there. *)
Lemma search_products_after_region E self cloud_coverage data_type extra w w1 :
  sp_region E self w = (Ok VNone, w1) →
  search_products E self cloud_coverage data_type extra w = (Raise (TypeError "object is not callable"), w1) ∨
  search_products E self cloud_coverage data_type extra w = (Raise (AttributeError "initial_keywords"), w1) ∨
  search_products E self cloud_coverage data_type extra w
  = (Raise (AttributeError "count_days_buffer"), with_ticks (S (ticks w1)) w1).
Proof.
  intros Hregion. unfold search_products. rewrite (bind_Ok _ _ _ _ _ Hregion).
  unfold bind.
  rewrite (readonly_run _ _ (readonly_getattr self "initial_keywords")).
  destruct ((getattr self "initial_keywords" w1).1) as [fk|e] eqn:Hfk; simpl.
  - destruct (getattr_resolves_calls self w1 fk) as (_ & _ & _ & _ & Hik & _).
    destruct (Hik Hfk) as [[x ->] | ->]; simpl; [by left|]. right. by right.
  - right. left. unfold getattr in Hfk.
    repeat case_match; simpl in Hfk; congruence.
Qed.

(** X16.  The outcome of [search_products] does not depend on its
    arguments: [cloud_coverage], [data_type] and [extra] change neither
    the exception raised nor the world the call leaves. *)
Theorem X16_search_ignores_arguments E self cloud_coverage data_type extra
    cloud_coverage' data_type' extra' w :
  search_products E self cloud_coverage data_type extra w =
  search_products E self cloud_coverage' data_type' extra' w.
Proof.
  destruct (sp_region E self w) as [[region|e] w1] eqn:Hregion.
  - pose proof (sp_region_returns_None _ _ _ _ _ Hregion) as ->.
    unfold search_products. rewrite !(bind_Ok _ _ _ _ _ Hregion). unfold bind.
    destruct (getattr self "initial_keywords" w1) as [[fk|?] w2]; [|done].
    destruct fk as [|[]|[]]; reflexivity.
  - unfold search_products. by rewrite !(bind_Raise _ _ _ _ _ Hregion).
Qed.

(** X17.  [search_products] never logs, never sends a search to the
    provider and never changes an object; it reads the clock at most
    once. *)
Theorem X17_search_is_silent E self cloud_coverage data_type extra w :
  log (search_products E self cloud_coverage data_type extra w).2 = log w ∧
  requests (search_products E self cloud_coverage data_type extra w).2 = requests w ∧
  heap (search_products E self cloud_coverage data_type extra w).2 = heap w ∧
  (ticks (search_products E self cloud_coverage data_type extra w).2 = ticks w ∨
   ticks (search_products E self cloud_coverage data_type extra w).2 = S (ticks w)).
Proof.
  pose proof (sp_region_world E self w) as (Hlog & Hreq & Hheap & Hticks).
  destruct (sp_region E self w) as [[region|e] w1] eqn:Hregion.
  - pose proof (sp_region_returns_None _ _ _ _ _ Hregion) as ->. simpl in *.
    destruct (search_products_after_region E self cloud_coverage data_type extra
                w w1 Hregion) as [-> | [-> | ->]]; simpl;
      rewrite ?Hticks; auto.
  - unfold search_products. rewrite (bind_Raise _ _ _ _ _ Hregion). simpl in *. auto.
Qed.

(** X18.  A search that gets as far as building the region leaves the
    file 'polygon.geojson' behind although the call then fails: the file
    system after [search_products] is the one [coords_to_polygon]
    produced. *)
Theorem X18_search_leaves_polygon_file E self cloud_coverage data_type extra
    w region w1 :
  sp_region E self w = (Ok region, w1) →
  returned (search_products E self cloud_coverage data_type extra w).1 = None ∧
  files (search_products E self cloud_coverage data_type extra w).2 = files w1 ∧
  ∃ frame, files w1 = <["polygon.geojson" := frame]> (files w).
Proof.
  intros Hregion.
  destruct (sp_region_Ok_inv _ _ _ _ _ Hregion) as (-> & frame & Hw1).
  split; [apply search_products_never_returns|]. split.
  - destruct (search_products_after_region E self cloud_coverage data_type extra
                w w1 Hregion) as [-> | [-> | ->]]; done.
  - exists frame. by rewrite Hw1.
Qed.

Lemma X18_witness :
  sp_region E0 (VRef 0) instance_world = (Ok VNone, (sp_region E0 (VRef 0) instance_world).2) ∧
  files instance_world !! "polygon.geojson" = None ∧
  returned run_search.1 = None ∧
  files run_search.2 = files (sp_region E0 (VRef 0) instance_world).2 ∧
  ∃ frame, files (sp_region E0 (VRef 0) instance_world).2
           = <["polygon.geojson" := frame]> (files instance_world).
Proof.
  assert (sp_region E0 (VRef 0) instance_world
          = (Ok VNone, (sp_region E0 (VRef 0) instance_world).2)) as Hregion
    by (vm_compute; reflexivity).
  split; [exact Hregion|]. split; [reflexivity|].
  exact (X18_search_leaves_polygon_file E0 (VRef 0) (VTuple [VInt 0; VInt 30]) VNone
           (VDict ∅) instance_world VNone _ Hregion).
Defined.

(** ** The report of lines 166-172 *)

Lemma sp_report_query E self c oc kw w :
  (getattr self "api" w).1 = Ok (Data (VRef c)) →
  heap w !! c = Some oc →
  cls oc = SentinelAPI →
  attrs oc !! "query" = None →
  sp_report E self (VDict kw) w =
    (products <- lift (api_query E kw) ;;
     titles <- lift (traverse (λ i, subscript i "title") (map snd products)) ;;
     logger <- load_global E "logger" ;;
     fi <- getattr logger "info" ;;
     call_log fi ("Were found " +:+ pretty (length titles) +:+ " -> "
                  +:+ repr_list E titles) ;;;
     ret (VODict products)) (with_requests (requests w ++ [kw]) w).
Proof.
  intros Hapi Hoc Hcls Hattr.
  assert (getattr self "api" w = (Ok (Data (VRef c)), w)) as Hapi'
    by (rewrite (readonly_run _ w (readonly_getattr self "api")); by rewrite Hapi).
  unfold sp_report. rewrite (bind_Ok _ _ _ _ _ Hapi').
  assert (slot_getattr (Data (VRef c)) "query" w = (Ok (Bound F_query (VRef c)), w))
    as Hq.
  { unfold slot_getattr, getattr. rewrite Hoc, Hattr, Hcls. reflexivity. }
  rewrite (bind_Ok _ _ _ _ _ Hq). unfold bind at 1 2. simpl.
  unfold bind at 2, lift. by destruct (api_query E kw).
Qed.

(** X19.  Lines 166-172, run with [self.api] a provider client, the
    module's [logger] bound and every product carrying a title: the
    keywords are sent to the provider once, one INFO line
    'Were found n -> [titles]' is logged, with n the number of products
    and the titles in the provider's order, and the provider's mapping is
    returned unchanged. *)
Theorem X19_report_of_products E self c oc kw products titles name w :
  (getattr self "api" w).1 = Ok (Data (VRef c)) →
  heap w !! c = Some oc →
  cls oc = SentinelAPI →
  attrs oc !! "query" = None →
  api_query E kw = Ok products →
  traverse (λ i, subscript i "title") products.*2 = Ok titles →
  globals E !! "logger" = Some (VLogger name) →
  ∃ w',
    sp_report E self (VDict kw) w = (Ok (VODict products), w') ∧
    requests w' = requests w ++ [kw] ∧
    log w' = log w ++ [(INFO, "Were found " +:+ pretty (length products) +:+ " -> "
                              +:+ repr_list E titles)] ∧
    heap w' = heap w ∧ files w' = files w.
Proof.
  intros Hapi Hoc Hcls Hattr Hproducts Htitles Hlogger.
  rewrite (sp_report_query E self c oc kw w Hapi Hoc Hcls Hattr).
  unfold bind, lift, load_global. rewrite Hproducts. simpl.
  change (map snd products) with (products.*2). rewrite Htitles. simpl.
  rewrite Hlogger. simpl.
  apply traverse_length in Htitles. rewrite length_fmap in Htitles.
  rewrite Htitles. eexists. split; [reflexivity|]. done.
Qed.

(** No product: the line is 'Were found 0 -> []'.  Two products: both
    titles, in order. *)
Lemma X19_witness :
  ((getattr (VRef 0) "api" client_world).1 = Ok (Data (VRef 1)) ∧
   heap client_world !! 1%nat = Some sample_client ∧
   cls sample_client = SentinelAPI ∧
   attrs sample_client !! "query" = None ∧
   api_query E0 short_keywords = Ok [] ∧
   globals E0 !! "logger" = Some (VLogger "sentilogging") ∧
   ∃ w',
     sp_report E0 (VRef 0) (VDict short_keywords) client_world = (Ok (VODict []), w') ∧
     requests w' = requests client_world ++ [short_keywords] ∧
     log w' = log client_world ++ [(INFO, "Were found 0 -> []")] ∧
     heap w' = heap client_world ∧ files w' = files client_world) ∧
  (api_query E_two short_keywords = Ok two_products ∧
   traverse (λ i, subscript i "title") two_products.*2
   = Ok [VStr "S2A_T1"; VStr "S2B_T2"] ∧
   ∃ w',
     sp_report E_two (VRef 0) (VDict short_keywords) client_world
     = (Ok (VODict two_products), w') ∧
     requests w' = requests client_world ++ [short_keywords] ∧
     log w' = log client_world
              ++ [(INFO, "Were found 2 -> ['S2A_T1', 'S2B_T2']")] ∧
     heap w' = heap client_world ∧ files w' = files client_world).
Proof.
  assert ((getattr (VRef 0) "api" client_world).1 = Ok (Data (VRef 1))) as Hapi
    by (vm_compute; reflexivity).
  assert (heap client_world !! 1%nat = Some sample_client) as Hoc
    by (vm_compute; reflexivity).
  assert (cls sample_client = SentinelAPI) as Hcls by (vm_compute; reflexivity).
  assert (attrs sample_client !! "query" = None) as Hattr by (vm_compute; reflexivity).
  split.
  - split; [exact Hapi|]. split; [exact Hoc|]. split; [exact Hcls|].
    split; [exact Hattr|]. split; [reflexivity|]. split; [reflexivity|].
    exact (X19_report_of_products E0 (VRef 0) 1%nat sample_client short_keywords
             [] [] "sentilogging" client_world Hapi Hoc Hcls Hattr
             eq_refl eq_refl eq_refl).
  - split; [reflexivity|]. split; [reflexivity|].
    exact (X19_report_of_products E_two (VRef 0) 1%nat sample_client short_keywords
             two_products [VStr "S2A_T1"; VStr "S2B_T2"] "sentilogging" client_world
             Hapi Hoc Hcls Hattr eq_refl eq_refl eq_refl).
Defined.

(** X20.  Lines 166-172, when the search was sent and an entry of the
    answer has no readable title ([i['title']] raises) or the provider
    itself raises: the exception propagates unchanged, the request has
    been sent, and nothing is logged. *)
Theorem X20_report_failures E self c oc kw w :
  (getattr self "api" w).1 = Ok (Data (VRef c)) →
  heap w !! c = Some oc →
  cls oc = SentinelAPI →
  attrs oc !! "query" = None →
  (∀ e, api_query E kw = Raise e →
        sp_report E self (VDict kw) w
        = (Raise e, with_requests (requests w ++ [kw]) w)) ∧
  (∀ products e,
     api_query E kw = Ok products →
     traverse (λ i, subscript i "title") products.*2 = Raise e →
     sp_report E self (VDict kw) w
     = (Raise e, with_requests (requests w ++ [kw]) w)).
Proof.
  intros Hapi Hoc Hcls Hattr.
  rewrite (sp_report_query E self c oc kw w Hapi Hoc Hcls Hattr).
  split.
  - intros e He. unfold bind, lift. by rewrite He.
  - intros products e Hproducts He. unfold bind, lift. rewrite Hproducts. simpl.
    change (map snd products) with (products.*2). by rewrite He.
Qed.

Lemma X20_witness :
  (getattr (VRef 0) "api" client_world).1 = Ok (Data (VRef 1)) ∧
  heap client_world !! 1%nat = Some sample_client ∧
  cls sample_client = SentinelAPI ∧
  attrs sample_client !! "query" = None ∧
  (api_query E_down short_keywords = Raise (ProviderError "503") ∧
   sp_report E_down (VRef 0) (VDict short_keywords) client_world
   = (Raise (ProviderError "503"),
      with_requests (requests client_world ++ [short_keywords]) client_world)) ∧
  (api_query E_untitled short_keywords = Ok untitled_products ∧
   traverse (λ i, subscript i "title") untitled_products.*2 = Raise (KeyError "title") ∧
   sp_report E_untitled (VRef 0) (VDict short_keywords) client_world
   = (Raise (KeyError "title"),
      with_requests (requests client_world ++ [short_keywords]) client_world)).
Proof.
  assert ((getattr (VRef 0) "api" client_world).1 = Ok (Data (VRef 1))) as Hapi
    by (vm_compute; reflexivity).
  assert (heap client_world !! 1%nat = Some sample_client) as Hoc
    by (vm_compute; reflexivity).
  assert (cls sample_client = SentinelAPI) as Hcls by (vm_compute; reflexivity).
  assert (attrs sample_client !! "query" = None) as Hattr by (vm_compute; reflexivity).
  split; [exact Hapi|]. split; [exact Hoc|]. split; [exact Hcls|].
  split; [exact Hattr|]. split.
  - split; [reflexivity|].
    exact (proj1 (X20_report_failures E_down (VRef 0) 1%nat sample_client
                    short_keywords client_world Hapi Hoc Hcls Hattr)
             (ProviderError "503") eq_refl).
  - assert (traverse (λ i, subscript i "title") untitled_products.*2
            = Raise (KeyError "title")) as Ht by (vm_compute; reflexivity).
    split; [reflexivity|]. split; [exact Ht|].
    exact (proj2 (X20_report_failures E_untitled (VRef 0) 1%nat sample_client
                    short_keywords client_world Hapi Hoc Hcls Hattr)
             untitled_products (KeyError "title") eq_refl Ht).
Defined.
